(** * moleculib/protein/dataset.py: the metadata extractor, the build
    pipeline and the dataset view of [ProteinDataset]

    A shallow embedding of [src/moleculib/protein/dataset.py].  Python
    integers are [Z], the [metrics] dictionary of per-chain counts is a
    [gmap] keyed by the chain index [c] of its key [num_res_{c}], a
    [DataFrame] is the list of its rows in positional order, exceptions are
    carried by the [outcome] monad, and the files under the base path are an
    explicit [Storage]. *)

From Stdlib Require Import QArith.
From stdpp Require Import gmap strings list fin_maps.

Open Scope Z_scope.

(** ** Exceptions *)

Inductive exn : Set :=
  | KeyboardInterrupt
  | SystemExit
  | ValueError
  | IndexError
  | RequestError
  | AttributeError
  | StorageError
  | OtherError.

Inductive outcome (A : Type) : Type :=
  | Return (a : A)
  | Raise (e : exn).
Arguments Return {A} a.
Arguments Raise {A} e.

#[global] Instance outcome_ret : MRet outcome := λ A a, Return a.
#[global] Instance outcome_bind : MBind outcome := λ A B k m,
  match m with
  | Return a => k a
  | Raise e => Raise e
  end.

(** [list(map(f, xs))]: the first call that raises ends the loop. *)
Fixpoint map_outcome {A B} (f : A → outcome B) (xs : list A) : outcome (list B) :=
  match xs with
  | [] => Return []
  | x :: xs' =>
      y ← f x;
      ys ← map_outcome f xs';
      Return (y :: ys)
  end.

(** ** Data model *)

(** The attributes of [ProteinDatum] that dataset.py reads.  A resolution
    is a rational; [None] is Python's [None] (a NaN cell of the table). *)
Record ProteinDatum : Type := {
  idcode : string;
  resolution : option Q;
  sequence : string;
  residue_token : list Z;
  chain_token : list Z
}.

(** One row of the metadata table: the [metrics] dictionary of
    [_extract_datum_row].  [num_res_chain !! c] is the cell of column
    [num_res_{c}]; [None] is a missing (NaN) cell. *)
Record MetadataRow : Type := {
  row_idcode : string;
  row_standard : bool;
  row_resolution : option Q;
  row_num_res : Z;
  num_res_chain : gmap Z Z
}.

Abbreviation DataFrame := (list MetadataRow).

Definition MAX_COMPLEX_SIZE : Z := 32.

(** [range(n)]: empty when [n <= 0]. *)
Definition py_range (n : Z) : list Z := Z.of_nat <$> seq 0 (Z.to_nat n).

(** The columns [num_res_{idx}] of [PDB_METADATA_FIELDS], for
    [idx in range(MAX_COMPLEX_SIZE)]: the only use of the constant. *)
Definition PDB_METADATA_CHAIN_FIELDS : list Z := py_range MAX_COMPLEX_SIZE.

(** ** numpy helpers *)

(** [np.max(a)]: raises [ValueError] on a zero-size array. *)
Definition np_max (a : list Z) : outcome Z :=
  match a with
  | [] => Raise ValueError
  | x :: xs => Return (foldl Z.max x xs)
  end.

(** [(a == c).sum()] *)
Definition count_eq (c : Z) (a : list Z) : Z :=
  Z.of_nat (length (filter (λ t, t = c) a)).

(** [(a == c).all()] *)
Definition all_eq (c : Z) (a : list Z) : bool := forallb (λ t, bool_decide (t = c)) a.

(** [len(s)] of a string *)
Definition py_len (s : string) : Z := Z.of_nat (String.length s).

(** [self.metadata.sample(frac=1)]: a random permutation of the rows.  The
    random state is the stream [draws] of numbers it yields; each row is
    inserted at the drawn position among the rows placed so far. *)
Fixpoint sample_frac1 {A} (draws : list nat) (l : list A) : list A :=
  match l with
  | [] => []
  | x :: l' =>
      let placed := sample_frac1 (tail draws) l' in
      let i := (hd 0%nat draws mod S (length placed))%nat in
      take i placed ++ x :: drop i placed
  end.

(** ** Paths and storage *)

Definition sep : Ascii.ascii := Ascii.ascii_of_nat 47.

Definition startswith_sep (s : string) : bool :=
  match s with
  | String c _ => bool_decide (c = sep)
  | EmptyString => false
  end.

Fixpoint endswith_sep (s : string) : bool :=
  match s with
  | EmptyString => false
  | String c EmptyString => bool_decide (c = sep)
  | String _ s' => endswith_sep s'
  end.

(** [os.path.join(a, b)] (posixpath); [base_path] is the string of the
    normalised [Path(base_path)], for which [Path / name] agrees with it. *)
Definition os_path_join (a b : string) : string :=
  if startswith_sep b then b
  else if bool_decide (a = EmptyString) || endswith_sep a then a +:+ b
  else a +:+ "/" +:+ b.

(** The files that dataset.py reads and writes: the parsed content of the
    record files and of the HDF tables, by path. *)
Record Storage : Type := {
  pdb_files : gmap string ProteinDatum;
  hdf_files : gmap string DataFrame
}.

(** [pd.read_hdf(path)] *)
Definition read_hdf (st : Storage) (path : string) : outcome DataFrame :=
  match hdf_files st !! path with
  | Some df => Return df
  | None => Raise StorageError
  end.

(** [df.to_hdf(path, key="metadata")] *)
Definition to_hdf (st : Storage) (path : string) (df : DataFrame) : Storage :=
  {| pdb_files := pdb_files st; hdf_files := <[path := df]> (hdf_files st) |}.

(** Modelled from the spec: [ProteinDatum.from_filepath] lives in
    [.datum]; loading a record whose backing file is missing or corrupt
    fails with a storage error, otherwise the stored record is returned. *)
Definition from_filepath (st : Storage) (filepath : string) : outcome ProteinDatum :=
  match pdb_files st !! filepath with
  | Some datum => Return datum
  | None => Raise StorageError
  end.

(** ** The dataset view: [ProteinDataset.__init__], [__len__], [__getitem__] *)

(** [attrs : Union[List[str], str]] *)
Inductive attrs_arg : Type :=
  | AttrsStr (s : string)
  | AttrsList (l : list string).

(** Modelled from the spec: [ProteinTransform] lives in [.transform]; a
    transform is a pure function of the record, and may be absent. *)
Record ProteinDataset : Type := {
  base_path : string;
  metadata : DataFrame;
  transform : option (ProteinDatum → ProteinDatum);
  attrs : attrs_arg
}.

Definition protein_attrs : list string :=
  [ "idcode"; "resolution"; "residue_token"; "residue_index"; "residue_token";
    "residue_mask"; "chain_token"; "atom_token"; "atom_coord"; "atom_mask" ].

(** A cell compared with a threshold: a missing (NaN or [None]) cell
    compares false. *)
Definition resolution_le (bound : Q) (row : MetadataRow) : bool :=
  match row_resolution row with
  | Some r => Qle_bool r bound
  | None => false
  end.

Definition num_res_0_ge (bound : Z) (row : MetadataRow) : bool :=
  match num_res_chain row !! 0 with
  | Some n => bool_decide (bound ≤ n)
  | None => false
  end.

Definition num_res_0_le (bound : Z) (row : MetadataRow) : bool :=
  match num_res_chain row !! 0 with
  | Some n => bool_decide (n ≤ bound)
  | None => false
  end.

(** [df[mask]] with [mask] the column-wise comparison [p] *)
Definition boolean_mask (p : MetadataRow → bool) (df : DataFrame) : DataFrame :=
  filter (λ row, p row = true) df.

(** [if threshold is not None: self.metadata = self.metadata[...]] *)
Definition apply_threshold {T} (threshold : option T) (p : T → MetadataRow → bool)
    (df : DataFrame) : DataFrame :=
  match threshold with
  | Some t => boolean_mask (p t) df
  | None => df
  end.

(** [attrs == "all"]: a list never equals a string. *)
Definition eq_all (a : attrs_arg) : bool :=
  match a with
  | AttrsStr s => bool_decide (s = "all")
  | AttrsList _ => false
  end.

(** [for attr in attrs], over a list or over the characters of a string *)
Definition attrs_iter (a : attrs_arg) : list string :=
  match a with
  | AttrsStr s => (λ c, String c EmptyString) <$> String.list_ascii_of_string s
  | AttrsList l => l
  end.

Fixpoint check_attrs (items : list string) : outcome unit :=
  match items with
  | [] => Return ()
  | attr :: items' =>
      if bool_decide (attr ∈ protein_attrs) then check_attrs items'
      else Raise AttributeError
  end.

(** [if metadata is None: metadata = pd.read_hdf(...)] *)
Definition load_metadata (st : Storage) (base_path : string) (metadata : option DataFrame)
    : outcome DataFrame :=
  match metadata with
  | None => read_hdf st (os_path_join base_path "metadata.h5")
  | Some df => Return df
  end.

Definition __init__ (st : Storage) (base_path : string)
    (transform : option (ProteinDatum → ProteinDatum)) (attrs : attrs_arg)
    (metadata : option DataFrame) (max_resolution : option Q)
    (min_sequence_length max_sequence_length : option Z)
    (draws : list nat) : outcome ProteinDataset :=
  metadata ← load_metadata st base_path metadata;
  let metadata := apply_threshold max_resolution resolution_le metadata in
  let metadata := apply_threshold min_sequence_length num_res_0_ge metadata in
  let metadata := apply_threshold max_sequence_length num_res_0_le metadata in
  let metadata := sample_frac1 draws metadata in
  if eq_all attrs then
    Return {| base_path := base_path; metadata := metadata;
              transform := transform; attrs := AttrsList protein_attrs |}
  else
    _ ← check_attrs (attrs_iter attrs);
    Return {| base_path := base_path; metadata := metadata;
              transform := transform; attrs := attrs |}.

Definition __len__ (self : ProteinDataset) : Z := Z.of_nat (length (metadata self)).

(** [df.iloc[idx]]: positional, negative positions count from the end, a
    position outside the table raises [IndexError]. *)
Definition iloc (df : DataFrame) (idx : Z) : outcome MetadataRow :=
  let n := Z.of_nat (length df) in
  let pos := if bool_decide (idx < 0) then idx + n else idx in
  if bool_decide (0 ≤ pos < n) then
    match df !! Z.to_nat pos with
    | Some row => Return row
    | None => Raise IndexError
    end
  else Raise IndexError.

Definition __getitem__ (st : Storage) (self : ProteinDataset) (idx : Z)
    : outcome ProteinDatum :=
  row ← iloc (metadata self) idx;
  let pdb_id := row_idcode row in
  let filepath := os_path_join (base_path self) (pdb_id +:+ ".pdb") in
  protein ← from_filepath st filepath;
  match transform self with
  | Some t => Return (t protein)
  | None => Return protein
  end.

(** ** The metadata extractor and the build pipeline *)

(** [concurrent.futures]: [Executor.map(fn, xs, chunksize)] cuts [xs] into
    chunks, one task per chunk. *)
Fixpoint get_chunks_aux {A} (fuel : nat) (chunksize : nat) (xs : list A) : list (list A) :=
  match fuel, xs with
  | O, _ | _, [] => []
  | S fuel', _ => take chunksize xs :: get_chunks_aux fuel' chunksize (drop chunksize xs)
  end.

Definition _get_chunks {A} (chunksize : nat) (xs : list A) : list (list A) :=
  get_chunks_aux (length xs) chunksize xs.

(** A worker runs [[fn(x) for x in chunk]]: the first exception is the
    task's result. *)
Definition _process_chunk {A B} (fn : A → outcome B) (chunk : list A) : outcome (list B) :=
  map_outcome fn chunk.

(** The pool: the tasks complete in the order [completion], each storing
    its result in the future of its own index. *)
Definition run_pool {A B} (fn : A → outcome B) (chunks : list (list A))
    (completion : list nat) : gmap nat (outcome (list B)) :=
  foldl (λ futures i,
           match chunks !! i with
           | Some chunk => <[i := _process_chunk fn chunk]> futures
           | None => futures
           end) ∅ completion.

(** The results are read in submission order, future by future; an
    exception stored in a future is raised when that future is read.
    [None]: a future that is never completed. *)
Fixpoint gather {B} (futures : gmap nat (outcome (list B))) (i n : nat)
    : option (outcome (list B)) :=
  match n with
  | O => Some (Return [])
  | S n' =>
      match futures !! i with
      | None => None
      | Some (Raise e) => Some (Raise e)
      | Some (Return ys) =>
          match gather futures (S i) n' with
          | None => None
          | Some (Raise e) => Some (Raise e)
          | Some (Return rest) => Some (Return (ys ++ rest))
          end
      end
  end.

(** [tqdm.contrib.concurrent.process_map(fn, xs, max_workers, chunksize)]:
    [list(executor.map(fn, xs, chunksize))] on a process pool.  Every task
    completes, in an order that the scheduler decides ([sched] is its
    random state); [max_workers] bounds how many run at once and plays no
    part in what is stored. *)
Definition process_map {A B} (fn : A → outcome B) (xs : list A)
    (max_workers : Z) (chunksize : nat) (sched : list nat) : option (outcome (list B)) :=
  let chunks := _get_chunks chunksize xs in
  let completion := sample_frac1 sched (seq 0 (length chunks)) in
  gather (run_pool fn chunks completion) 0 (length chunks).

Section Build.

(** [UNK_TOKEN] is imported from [.alphabet]. *)
Variable UNK_TOKEN : Z.

(** Modelled from the spec: [ProteinDatum.fetch_pdb_id(pdb_id, save_path)]
    lives in [.datum]; it returns a parsed record or fails with a request
    error or a content error.  The record file it writes is not tracked. *)
Variable fetch_pdb_id : string → string → outcome ProteinDatum.

(** [pids_file_to_list(root + "/data/pids_all.txt")] and [gettempdir()] *)
Variable pids_all : list string.
Variable tempdir : string.

Definition is_standard (datum : ProteinDatum) : bool :=
  negb (all_eq UNK_TOKEN (residue_token datum)).

(** The loop [for chain in range(np.max(datum.chain_token))], writing
    [metrics[f"num_res_{chain}"]]. *)
Definition chain_loop (tokens : list Z) (chains : list Z) : gmap Z Z :=
  foldl (λ metrics chain, <[chain := count_eq chain tokens]> metrics) ∅ chains.

Definition _extract_datum_row (datum : ProteinDatum) : outcome DataFrame :=
  let standard := is_standard datum in
  let num_res := py_len (sequence datum) in
  top ← np_max (chain_token datum);
  Return [ {| row_idcode := idcode datum;
              row_standard := standard;
              row_resolution := resolution datum;
              row_num_res := num_res;
              num_res_chain := chain_loop (chain_token datum) (py_range top) |} ].

Definition _maybe_fetch_and_extract (pdb_id save_path : string) : outcome (option DataFrame) :=
  match fetch_pdb_id pdb_id save_path with
  | Raise KeyboardInterrupt => Raise SystemExit
  | Raise ValueError | Raise IndexError => Return None
  | Raise RequestError => Return None
  | Raise e => Raise e
  | Return datum =>
      if bool_decide (py_len (sequence datum) = 0) then Return None
      else row ← _extract_datum_row datum; Return (Some row)
  end.

(** Lines 166-172: the rows, one entry per identifier. *)
Definition build_rows (pdb_ids : list string) (save_path : string) (max_workers : Z)
    (sched : list nat) : option (outcome (list (option DataFrame))) :=
  let extractor := λ pdb_id, _maybe_fetch_and_extract pdb_id save_path in
  if bool_decide (1 < max_workers) then
    process_map extractor pdb_ids max_workers 50 sched
  else Some (map_outcome extractor pdb_ids).

(** Lines 163-175: [pd.concat((metadata, *rows), axis=0)] over the empty
    table and the rows that are not [None]. *)
Definition build_metadata (pdb_ids : list string) (save_path : string) (max_workers : Z)
    (sched : list nat) : option (outcome DataFrame) :=
  rows ← build_rows pdb_ids save_path max_workers sched;
  Some (rows ← rows;
        let rows := omap id rows in
        Return (concat ([] :: rows))).

(** The keyword arguments that [build] hands on to the constructor. *)
Record kwargs : Type := {
  kw_transform : option (ProteinDatum → ProteinDatum);
  kw_attrs : attrs_arg;
  kw_max_resolution : option Q;
  kw_min_sequence_length : option Z;
  kw_max_sequence_length : option Z
}.

Definition build (pdb_ids : option (list string)) (save : bool) (save_path : option string)
    (max_workers : Z) (kw : kwargs) (sched draws : list nat) (st : Storage)
    : option (Storage * outcome ProteinDataset) :=
  let pdb_ids := default pids_all pdb_ids in
  let save_path := default tempdir save_path in
  built ← build_metadata pdb_ids save_path max_workers sched;
  match built with
  | Raise e => Some (st, Raise e)
  | Return metadata =>
      let st := if save then to_hdf st (os_path_join save_path "metadata.h5") metadata
                else st in
      Some (st, __init__ st save_path (kw_transform kw) (kw_attrs kw) (Some metadata)
                  (kw_max_resolution kw) (kw_min_sequence_length kw)
                  (kw_max_sequence_length kw) draws)
  end.

End Build.

(** ** Reading the table *)

(** The sum of the per-chain counts of a row. *)
Definition sum_counts (m : gmap Z Z) : Z := map_fold (λ _ n acc, n + acc) 0 m.

(** A cell against an optional threshold: no threshold imposes no
    constraint; a supplied one needs the cell present and within it. *)
Definition cell_within {C T} (rel : C → T → Prop) (threshold : option T)
    (cell : option C) : Prop :=
  match threshold, cell with
  | None, _ => True
  | Some t, Some c => rel c t
  | Some _, None => False
  end.

(** A row passes every supplied threshold: resolution at most the
    maximum, chain-0 count between the minimum and the maximum inclusive. *)
Definition passes_thresholds (max_resolution : option Q)
    (min_sequence_length max_sequence_length : option Z) (row : MetadataRow) : Prop :=
  cell_within Qle max_resolution (row_resolution row) ∧
  cell_within Z.ge min_sequence_length (num_res_chain row !! 0) ∧
  cell_within Z.le max_sequence_length (num_res_chain row !! 0).

#[global] Instance Qle_decision (x y : Q) : Decision (x <= y)%Q.
Proof.
  destruct (Qle_bool x y) eqn:E.
  - left. by apply Qle_bool_iff.
  - right. intros H%Qle_bool_iff. congruence.
Defined.

#[global] Instance Zge_decision (x y : Z) : Decision (x >= y).
Proof. destruct (decide (y ≤ x)); [left|right]; lia. Defined.

#[global] Instance cell_within_dec {C T} (rel : C → T → Prop)
    `{∀ c t, Decision (rel c t)} (threshold : option T) (cell : option C) :
  Decision (cell_within rel threshold cell).
Proof. destruct threshold, cell; simpl; apply _. Defined.

#[global] Instance passes_thresholds_dec R lo hi row :
  Decision (passes_thresholds R lo hi row).
Proof. unfold passes_thresholds. apply _. Defined.

(** The attribute names of the specification, in the code's spelling. *)
Definition recognized_attributes : list string :=
  [ "idcode"; "resolution"; "residue_token"; "residue_index"; "residue_mask";
    "chain_token"; "atom_token"; "atom_coord"; "atom_mask" ].

(** The fetch outcomes that [_maybe_fetch_and_extract] turns into a skip. *)
Definition fetch_skipped (fetched : outcome ProteinDatum) : Prop :=
  fetched = Raise ValueError ∨ fetched = Raise IndexError ∨
  fetched = Raise RequestError ∨
  ∃ datum, fetched = Return datum ∧ py_len (sequence datum) = 0.

(** An identifier is processed when its entry of [rows] is a row, not
    [None]. *)
Definition is_processed (entry : outcome (option DataFrame)) : bool :=
  match entry with
  | Return (Some _) => true
  | _ => false
  end.

(** A fetched record that [_maybe_fetch_and_extract] turns into a row. *)
Definition extractable (datum : ProteinDatum) : Prop :=
  py_len (sequence datum) ≠ 0 ∧ chain_token datum ≠ [].

(** ** Example records *)

Definition mk_datum (id : string) (res : option Q) (seq : string) (chains : list Z)
    : ProteinDatum :=
  {| idcode := id; resolution := res; sequence := seq;
     residue_token := (λ _, 5) <$> chains; chain_token := chains |}.

(** One chain of three residues; two chains; thirty-four chains. *)
Definition datum_one_chain : ProteinDatum := mk_datum "1ABC" (Some (3 # 2)) "GAV" [0; 0; 0].
Definition datum_two_chains : ProteinDatum := mk_datum "2XYZ" (Some (2 # 1)) "GAV" [0; 0; 1].
Definition datum_many_chains : ProteinDatum :=
  mk_datum "3BIG" None "GGGGGGGGGGGGGGGGGGGGGGGGGGGGGGGGGG" (py_range 34).

(** A record source that knows every identifier but ["BAD"]. *)
Definition fetch_example (pdb_id save_path : string) : outcome ProteinDatum :=
  if bool_decide (pdb_id = "BAD") then Raise ValueError
  else Return (mk_datum pdb_id (Some (3 # 2)) "GAV" [0; 0; 1]).

Definition empty_storage : Storage := {| pdb_files := ∅; hdf_files := ∅ |}.

Definition storage_example : Storage :=
  {| pdb_files := {[ "/data/A2.pdb" := datum_two_chains ]}; hdf_files := ∅ |}.

Definition default_kwargs : kwargs :=
  {| kw_transform := None; kw_attrs := AttrsStr "all"; kw_max_resolution := None;
     kw_min_sequence_length := None; kw_max_sequence_length := None |}.

Definition mk_row (id : string) (res : option Q) (n0 : Z) : MetadataRow :=
  {| row_idcode := id; row_standard := true; row_resolution := res;
     row_num_res := n0; num_res_chain := {[ 0 := n0 ]} |}.

(** The table of the spec's scenario: resolutions 1.5, 2.0 and 3.1. *)
Definition table_example : DataFrame :=
  [ mk_row "A1" (Some (3 # 2)) 10; mk_row "A2" (Some (2 # 1)) 20; mk_row "A3" (Some (31 # 10)) 30 ].

Definition view_example : ProteinDataset :=
  {| base_path := "/data"; metadata := table_example; transform := None;
     attrs := AttrsList protein_attrs |}.

(** A record source with every kind of outcome: an interrupted fetch, a
    failed request, a record with no residue, a record whose residues carry
    no chain assignment, and a good record for every other identifier. *)
Definition fetch_outcomes (pdb_id save_path : string) : outcome ProteinDatum :=
  if bool_decide (pdb_id = "STOP") then Raise KeyboardInterrupt
  else if bool_decide (pdb_id = "GONE") then Raise RequestError
  else if bool_decide (pdb_id = "VOID") then Return (mk_datum pdb_id None EmptyString [])
  else if bool_decide (pdb_id = "TORN") then Return (mk_datum pdb_id None "GAV" [])
  else Return (mk_datum pdb_id (Some (3 # 2)) "GAV" [0; 0; 1]).

(** The row that extraction gives for [datum_one_chain]. *)
Definition row_one_chain : MetadataRow :=
  {| row_idcode := "1ABC"; row_standard := true; row_resolution := Some (3 # 2);
     row_num_res := 3; num_res_chain := ∅ |}.

(** The table of a build over two good identifiers. *)
Definition row_of_id (id : string) : MetadataRow :=
  {| row_idcode := id; row_standard := true; row_resolution := Some (3 # 2);
     row_num_res := 3; num_res_chain := {[ 0 := 2 ]} |}.

Definition rows_example : DataFrame := [ row_of_id "A1"; row_of_id "A2" ].

(** * Properties *)

(** ** The outcome monad *)

Lemma map_outcome_app {A B} (f : A → outcome B) (xs ys : list A) :
  map_outcome f (xs ++ ys) =
  (a ← map_outcome f xs; b ← map_outcome f ys; Return (a ++ b)).
Proof.
  induction xs as [|x xs IH]; simpl.
  - by destruct (map_outcome f ys).
  - destruct (f x) as [y|e]; simpl; [|done].
    rewrite IH. destruct (map_outcome f xs) as [a|e]; simpl; [|done].
    by destruct (map_outcome f ys).
Qed.

Lemma map_outcome_return {A B} (f : A → outcome B) (xs : list A) :
  (∀ x, x ∈ xs → ∃ y, f x = Return y) →
  ∃ ys, map_outcome f xs = Return ys ∧ Forall2 (λ x y, f x = Return y) xs ys.
Proof.
  induction xs as [|x xs IH]; intros Hall; simpl.
  - exists []. by split; [|constructor].
  - destruct (Hall x) as [y Hy]; [by left|].
    destruct IH as (ys & Hys & HF); [intros z Hz; apply Hall; by right|].
    exists (y :: ys). rewrite Hy, Hys. simpl. split; [done|]. by constructor.
Qed.

(** ** The shuffle *)

Lemma sample_frac1_perm {A} (draws : list nat) (l : list A) :
  sample_frac1 draws l ≡ₚ l.
Proof.
  revert draws. induction l as [|x l IH]; intros draws; simpl; [done|].
  rewrite <- Permutation_middle, take_drop. by rewrite IH.
Qed.

Lemma sample_frac1_length {A} (draws : list nat) (l : list A) :
  length (sample_frac1 draws l) = length l.
Proof. by rewrite sample_frac1_perm. Qed.

(** ** The chain loop *)

Lemma elem_of_py_range (n c : Z) : c ∈ py_range n ↔ 0 ≤ c < n.
Proof.
  unfold py_range. rewrite list_elem_of_fmap. split.
  - intros (k & -> & Hk). apply elem_of_seq in Hk. lia.
  - intros Hc. exists (Z.to_nat c). split; [lia|]. apply elem_of_seq. lia.
Qed.

Lemma chain_loop_acc (tokens chains : list Z) (acc : gmap Z Z) (c : Z) :
  foldl (λ metrics chain, <[chain := count_eq chain tokens]> metrics) acc chains !! c =
  if decide (c ∈ chains) then Some (count_eq c tokens) else acc !! c.
Proof.
  revert acc. induction chains as [|x chains IH]; intros acc.
  - simpl foldl. case_decide as Hin; [by apply elem_of_nil in Hin|done].
  - simpl foldl. rewrite IH.
    destruct (decide (c ∈ chains)) as [Hin|Hin].
    + rewrite decide_True; [done|by right].
    + destruct (decide (c = x)) as [Hcx|Hcx].
      * rewrite decide_True; [|rewrite Hcx; by left].
        rewrite Hcx. by rewrite lookup_insert_eq.
      * rewrite decide_False; [by rewrite lookup_insert_ne|].
        rewrite elem_of_cons. tauto.
Qed.

Lemma chain_loop_lookup (tokens : list Z) (top c : Z) :
  chain_loop tokens (py_range top) !! c =
  if decide (0 ≤ c < top) then Some (count_eq c tokens) else None.
Proof.
  unfold chain_loop. rewrite chain_loop_acc.
  destruct (decide (c ∈ py_range top)) as [Hin|Hin];
    rewrite elem_of_py_range in Hin.
  - by rewrite decide_True.
  - by rewrite decide_False, lookup_empty.
Qed.

Lemma foldl_max_spec (xs : list Z) (x : Z) :
  (foldl Z.max x xs = x ∨ foldl Z.max x xs ∈ xs) ∧
  x ≤ foldl Z.max x xs ∧ ∀ y, y ∈ xs → y ≤ foldl Z.max x xs.
Proof.
  revert x. induction xs as [|a xs IH]; intros x; simpl.
  - split; [by left|]. split; [lia|]. intros y Hy. by apply elem_of_nil in Hy.
  - destruct (IH (Z.max x a)) as (Hin & Hle & Hall). split; [|split].
    + destruct Hin as [Heq|Hin]; [|right; by right].
      rewrite Heq. destruct (Z.max_spec x a) as [[_ ->]|[_ ->]]; [right; by left|by left].
    + lia.
    + intros y [->|Hy]%elem_of_cons; [lia|by apply Hall].
Qed.

Lemma np_max_spec (a : list Z) :
  a ≠ [] → ∃ top, np_max a = Return top ∧ top ∈ a ∧ ∀ y, y ∈ a → y ≤ top.
Proof.
  destruct a as [|x xs]; [done|]. intros _. exists (foldl Z.max x xs).
  destruct (foldl_max_spec xs x) as (Hin & Hle & Hall). split; [done|]. split.
  - destruct Hin as [->|Hin]; [by left|by right].
  - intros y [->|Hy]%elem_of_cons; [done|by apply Hall].
Qed.

(** ** The metadata extractor *)

Lemma all_eq_true (c : Z) (a : list Z) :
  all_eq c a = true ↔ ∀ t, t ∈ a → t = c.
Proof.
  unfold all_eq. induction a as [|x a IH]; simpl.
  - split; [|done]. intros _ t Ht. by apply elem_of_nil in Ht.
  - rewrite andb_true_iff, bool_decide_eq_true, IH. split.
    + intros [-> Hall] t [->|Ht]%elem_of_cons; [done|by apply Hall].
    + intros Hall. split; [apply Hall; by left|]. intros t Ht. apply Hall. by right.
Qed.

Lemma is_standard_false (UNK_TOKEN : Z) (datum : ProteinDatum) :
  is_standard UNK_TOKEN datum = false ↔ ∀ t, t ∈ residue_token datum → t = UNK_TOKEN.
Proof. unfold is_standard. by rewrite negb_false_iff, all_eq_true. Qed.

(** What [_extract_datum_row] returns on a record with at least one chain
    token: one row, with a count for each chain index below the largest. *)
Lemma extract_datum_row_return (UNK_TOKEN : Z) (datum : ProteinDatum) :
  chain_token datum ≠ [] →
  ∃ top,
    np_max (chain_token datum) = Return top ∧
    top ∈ chain_token datum ∧
    (∀ c, c ∈ chain_token datum → c ≤ top) ∧
    _extract_datum_row UNK_TOKEN datum =
      Return [ {| row_idcode := idcode datum;
                  row_standard := is_standard UNK_TOKEN datum;
                  row_resolution := resolution datum;
                  row_num_res := py_len (sequence datum);
                  num_res_chain := chain_loop (chain_token datum) (py_range top) |} ].
Proof.
  intros Hne. destruct (np_max_spec _ Hne) as (top & Hmax & Hin & Hle).
  exists top. repeat split; try done. unfold _extract_datum_row. by rewrite Hmax.
Qed.

Lemma extract_datum_row_raise (UNK_TOKEN : Z) (datum : ProteinDatum) :
  chain_token datum = [] → _extract_datum_row UNK_TOKEN datum = Raise ValueError.
Proof. intros Hnil. unfold _extract_datum_row. by rewrite Hnil. Qed.

(** The largest chain index of a record never gets a count. *)
Lemma extract_datum_row_top_missing (UNK_TOKEN : Z) (datum : ProteinDatum) (top : Z)
    (row : MetadataRow) :
  np_max (chain_token datum) = Return top →
  _extract_datum_row UNK_TOKEN datum = Return [row] →
  num_res_chain row !! top = None.
Proof.
  intros Hmax. unfold _extract_datum_row. rewrite Hmax. simpl. intros [= <-]. simpl.
  rewrite chain_loop_lookup. case_decide; [lia|done].
Qed.

(** C1 (defect of the code): the record with chain assignments [0; 0; 1]
    is 0-based and contiguous and has three residues, one of them in
    chain 1; the loop over [range(np.max(chain_token))] stops before the
    last chain, so the extracted row has no count for chain 1 and its
    per-chain counts sum to 2, not to the 3 residues of the record.  The
    row of a record with the single chain 0 has no per-chain count at
    all. *)
Theorem C1_last_chain_not_counted :
  (∃ row,
     _extract_datum_row 1 datum_two_chains = Return [row] ∧
     chain_token datum_two_chains = [0; 0; 1] ∧
     count_eq 1 (chain_token datum_two_chains) = 1 ∧
     num_res_chain row !! 1 = None ∧
     num_res_chain row !! 0 = Some 2 ∧
     sum_counts (num_res_chain row) = 2 ∧
     row_num_res row = 3) ∧
  (∃ row,
     _extract_datum_row 1 datum_one_chain = Return [row] ∧
     chain_token datum_one_chain = [0; 0; 0] ∧
     num_res_chain row = ∅ ∧
     row_num_res row = 3).
Proof. split; (eexists; split; [reflexivity|]; by vm_compute). Qed.

(** C2 (counterexample): the record with chains 0 to 33 contains chain
    indices at and beyond [MAX_COMPLEX_SIZE]; extraction returns a row and
    raises nothing, and the row carries a count for chain 32. *)
Lemma C2_counterexample :
  (∃ c, c ∈ chain_token datum_many_chains ∧ MAX_COMPLEX_SIZE ≤ c) ∧
  ∃ row,
    _extract_datum_row 1 datum_many_chains = Return [row] ∧
    num_res_chain row !! 32 = Some 1.
Proof.
  split.
  - exists 33. split; [|by vm_compute]. apply elem_of_py_range. lia.
  - eexists. split; [reflexivity|]. by vm_compute.
Qed.

(** C2 (amended): for every record that contains a chain index at or
    beyond [MAX_COMPLEX_SIZE], extraction raises no error; it returns one
    row, the largest chain index [top] of the record is at or beyond the
    maximum, and the row holds the residue count of every chain index
    below [top], those at or beyond the maximum included. *)
Theorem C2_no_chain_limit (UNK_TOKEN : Z) (datum : ProteinDatum) :
  (∃ c, c ∈ chain_token datum ∧ MAX_COMPLEX_SIZE ≤ c) →
  ∃ row top,
    _extract_datum_row UNK_TOKEN datum = Return [row] ∧
    np_max (chain_token datum) = Return top ∧
    MAX_COMPLEX_SIZE ≤ top ∧
    ∀ c, 0 ≤ c < top →
      num_res_chain row !! c = Some (count_eq c (chain_token datum)).
Proof.
  intros (c & Hc & Hbig).
  assert (chain_token datum ≠ []) as Hne by (intros Hnil; rewrite Hnil in Hc; by apply elem_of_nil in Hc).
  destruct (extract_datum_row_return UNK_TOKEN datum Hne) as (top & Hmax & _ & Hle & Hrow).
  eexists _, top. split; [exact Hrow|]. split; [done|]. split.
  - specialize (Hle c Hc). lia.
  - intros k Hk. simpl. rewrite chain_loop_lookup. by rewrite decide_True.
Qed.

Lemma C2_no_chain_limit_witness :
  ∃ row top,
    _extract_datum_row 1 datum_many_chains = Return [row] ∧
    np_max (chain_token datum_many_chains) = Return top ∧
    MAX_COMPLEX_SIZE ≤ top ∧
    ∀ c, 0 ≤ c < top →
      num_res_chain row !! c = Some (count_eq c (chain_token datum_many_chains)).
Proof.
  apply (C2_no_chain_limit 1 datum_many_chains).
  exists 33. split.
  - apply (bool_decide_unpack _). vm_compute. exact I.
  - unfold MAX_COMPLEX_SIZE. lia.
Defined.

(** C8: for every record on which extraction returns (its chain
    assignment is not empty), the "standard" flag of the row is false if
    and only if every residue token equals [UNK_TOKEN], and it is true as
    soon as one residue token differs from [UNK_TOKEN]. *)
Theorem C8_standard_flag (UNK_TOKEN : Z) (datum : ProteinDatum) :
  chain_token datum ≠ [] →
  ∃ row,
    _extract_datum_row UNK_TOKEN datum = Return [row] ∧
    (row_standard row = false ↔ ∀ t, t ∈ residue_token datum → t = UNK_TOKEN) ∧
    ((∃ t, t ∈ residue_token datum ∧ t ≠ UNK_TOKEN) → row_standard row = true).
Proof.
  intros Hne.
  destruct (extract_datum_row_return UNK_TOKEN datum Hne) as (top & _ & _ & _ & Hrow).
  eexists. split; [exact Hrow|]. simpl. split.
  - apply is_standard_false.
  - intros (t & Ht & Hneq). apply not_false_iff_true. intros Hfalse.
    apply Hneq. by apply (is_standard_false UNK_TOKEN datum).
Qed.

Lemma C8_standard_flag_witness :
  ∃ row,
    _extract_datum_row 1 datum_two_chains = Return [row] ∧
    (row_standard row = false ↔ ∀ t, t ∈ residue_token datum_two_chains → t = 1) ∧
    ((∃ t, t ∈ residue_token datum_two_chains ∧ t ≠ 1) → row_standard row = true).
Proof.
  apply (C8_standard_flag 1 datum_two_chains). vm_compute. discriminate.
Defined.

(** ** The dataset view *)

Lemma boolean_mask_filter (p : MetadataRow → bool) (P : MetadataRow → Prop)
    `{∀ row, Decision (P row)} (df : DataFrame) :
  (∀ row, p row = true ↔ P row) → boolean_mask p df = filter P df.
Proof. intros Hp. unfold boolean_mask. apply list_filter_iff, Hp. Qed.

Lemma resolution_le_within (bound : Q) (row : MetadataRow) :
  resolution_le bound row = true ↔ cell_within Qle (Some bound) (row_resolution row).
Proof.
  unfold resolution_le. destruct (row_resolution row) as [r|]; simpl; [|done].
  apply Qle_bool_iff.
Qed.

Lemma num_res_0_ge_within (bound : Z) (row : MetadataRow) :
  num_res_0_ge bound row = true ↔ cell_within Z.ge (Some bound) (num_res_chain row !! 0).
Proof.
  unfold num_res_0_ge. destruct (num_res_chain row !! 0) as [n|]; simpl; [|done].
  rewrite bool_decide_eq_true. lia.
Qed.

Lemma num_res_0_le_within (bound : Z) (row : MetadataRow) :
  num_res_0_le bound row = true ↔ cell_within Z.le (Some bound) (num_res_chain row !! 0).
Proof.
  unfold num_res_0_le. destruct (num_res_chain row !! 0) as [n|]; simpl; [|done].
  by rewrite bool_decide_eq_true.
Qed.

Lemma apply_threshold_filter {C T} (rel : C → T → Prop) `{∀ c t, Decision (rel c t)}
    (p : T → MetadataRow → bool) (cell : MetadataRow → option C)
    (threshold : option T) (df : DataFrame) :
  (∀ t row, p t row = true ↔ cell_within rel (Some t) (cell row)) →
  apply_threshold threshold p df =
  filter (λ row, cell_within rel threshold (cell row)) df.
Proof.
  intros Hp. destruct threshold as [t|]; unfold apply_threshold.
  - apply boolean_mask_filter, Hp.
  - induction df as [|row df IH]; [done|].
    rewrite filter_cons_True by done. by rewrite <- IH.
Qed.

(** The three masks of the constructor keep the rows that pass every
    supplied threshold, in the order of the table. *)
Lemma thresholds_filter (R : option Q) (lo hi : option Z) (df : DataFrame) :
  apply_threshold hi num_res_0_le
    (apply_threshold lo num_res_0_ge (apply_threshold R resolution_le df)) =
  filter (passes_thresholds R lo hi) df.
Proof.
  rewrite (apply_threshold_filter Qle resolution_le row_resolution)
    by apply resolution_le_within.
  rewrite (apply_threshold_filter Z.ge num_res_0_ge (λ row, num_res_chain row !! 0))
    by apply num_res_0_ge_within.
  rewrite (apply_threshold_filter Z.le num_res_0_le (λ row, num_res_chain row !! 0))
    by apply num_res_0_le_within.
  rewrite !list_filter_filter. apply list_filter_iff.
  intros row. unfold passes_thresholds. tauto.
Qed.

Lemma check_attrs_return (items : list string) :
  (∀ a, a ∈ items → a ∈ protein_attrs) → check_attrs items = Return ().
Proof.
  induction items as [|a items IH]; intros Hall; simpl; [done|].
  rewrite bool_decide_eq_true_2 by (apply Hall; by left).
  apply IH. intros b Hb. apply Hall. by right.
Qed.

Lemma check_attrs_raise (items : list string) :
  (∃ a, a ∈ items ∧ a ∉ protein_attrs) → check_attrs items = Raise AttributeError.
Proof.
  intros (a & Hin & Hbad). induction items as [|b items IH]; simpl.
  - by apply elem_of_nil in Hin.
  - case_bool_decide as Hb; [|done].
    apply IH. apply elem_of_cons in Hin as [->|Hin]; [done|exact Hin].
Qed.

Lemma protein_attrs_recognized (a : string) :
  a ∈ protein_attrs ↔ a ∈ recognized_attributes.
Proof.
  unfold protein_attrs, recognized_attributes.
  rewrite !elem_of_cons, !elem_of_nil. tauto.
Qed.

(** The fields of a constructed view: the allow-list reaches none but
    [attrs]. *)
Lemma init_fields (st : Storage) (base : string)
    (tr : option (ProteinDatum → ProteinDatum)) (a : attrs_arg)
    (md : option DataFrame) (R : option Q) (lo hi : option Z) (draws : list nat)
    (view : ProteinDataset) :
  __init__ st base tr a md R lo hi draws = Return view →
  ∃ table,
    load_metadata st base md = Return table ∧
    base_path view = base ∧
    transform view = tr ∧
    metadata view = sample_frac1 draws (filter (passes_thresholds R lo hi) table).
Proof.
  unfold __init__. destruct (load_metadata st base md) as [table|e]; simpl; [|done].
  rewrite thresholds_filter. intros Hview. exists table. split; [done|].
  destruct (eq_all a).
  - by injection Hview as <-.
  - destruct (check_attrs (attrs_iter a)); simpl in Hview; [|done].
    by injection Hview as <-.
Qed.

Lemma init_return (st : Storage) (base : string)
    (tr : option (ProteinDatum → ProteinDatum)) (a : attrs_arg)
    (md : option DataFrame) (R : option Q) (lo hi : option Z) (draws : list nat)
    (table : DataFrame) :
  load_metadata st base md = Return table →
  eq_all a = true ∨ check_attrs (attrs_iter a) = Return () →
  ∃ view, __init__ st base tr a md R lo hi draws = Return view.
Proof.
  intros Hload Hattrs. unfold __init__. rewrite Hload. simpl.
  destruct (eq_all a); [by eexists|].
  destruct Hattrs as [Hall | Hcheck]; [done|]. rewrite Hcheck. by eexists.
Qed.

Lemma iloc_in_range (df : DataFrame) (i : Z) :
  0 ≤ i < Z.of_nat (length df) → ∃ row, iloc df i = Return row ∧ df !! Z.to_nat i = Some row.
Proof.
  intros Hi. unfold iloc. rewrite (bool_decide_eq_false_2 (i < 0)) by lia.
  cbv zeta iota. rewrite bool_decide_eq_true_2 by lia.
  destruct (lookup_lt_is_Some_2 df (Z.to_nat i)) as [row Hrow]; [lia|].
  exists row. by rewrite Hrow.
Qed.

Lemma iloc_at_length (df : DataFrame) :
  iloc df (Z.of_nat (length df)) = Raise IndexError.
Proof.
  unfold iloc. rewrite (bool_decide_eq_false_2 (_ < 0)) by lia.
  cbv zeta iota. by rewrite bool_decide_eq_false_2 by lia.
Qed.

Lemma getitem_fields (st : Storage) (v1 v2 : ProteinDataset) (i : Z) :
  base_path v1 = base_path v2 →
  transform v1 = transform v2 →
  metadata v1 = metadata v2 →
  __getitem__ st v1 i = __getitem__ st v2 i.
Proof. intros Hb Ht Hm. unfold __getitem__. by rewrite Hb, Ht, Hm. Qed.

(** C5: for every table the constructor receives or loads, every
    combination of thresholds and every valid allow-list, the view is
    constructed, its rows are a permutation of the rows of the table that
    pass every supplied threshold, and its length is their number. *)
Theorem C5_view_keeps_passing_rows (st : Storage) (base : string)
    (tr : option (ProteinDatum → ProteinDatum)) (a : attrs_arg)
    (md : option DataFrame) (R : option Q) (lo hi : option Z) (draws : list nat)
    (table : DataFrame) :
  load_metadata st base md = Return table →
  eq_all a = true ∨ (∀ x, x ∈ attrs_iter a → x ∈ protein_attrs) →
  ∃ view,
    __init__ st base tr a md R lo hi draws = Return view ∧
    metadata view ≡ₚ filter (passes_thresholds R lo hi) table ∧
    __len__ view = Z.of_nat (length (filter (passes_thresholds R lo hi) table)).
Proof.
  intros Hload Hattrs.
  destruct (init_return st base tr a md R lo hi draws table Hload) as [view Hview].
  { destruct Hattrs as [Hall | Hok]; [by left|right]. by apply check_attrs_return. }
  exists view. split; [done|].
  destruct (init_fields _ _ _ _ _ _ _ _ _ _ Hview) as (table' & Hload' & _ & _ & Hmd).
  rewrite Hload in Hload'. injection Hload' as <-.
  unfold __len__. rewrite Hmd. split.
  - apply sample_frac1_perm.
  - by rewrite sample_frac1_length.
Qed.

Lemma C5_view_keeps_passing_rows_witness :
  ∃ view,
    __init__ empty_storage "/data" None (AttrsStr "all") (Some table_example)
      (Some (2 # 1)) None None [5; 3; 1]%nat = Return view ∧
    metadata view ≡ₚ filter (passes_thresholds (Some (2 # 1)) None None) table_example ∧
    __len__ view =
      Z.of_nat (length (filter (passes_thresholds (Some (2 # 1)) None None) table_example)).
Proof.
  apply (C5_view_keeps_passing_rows empty_storage "/data" None (AttrsStr "all")
           (Some table_example) (Some (2 # 1)) None None [5; 3; 1]%nat table_example).
  - reflexivity.
  - left. reflexivity.
Defined.

(** The scenario of the specification: a maximum resolution of 2.0 over
    resolutions 1.5, 2.0 and 3.1 leaves a view of length 2. *)
Example scenario_max_resolution :
  ∃ view,
    __init__ empty_storage "/data" None (AttrsStr "all") (Some table_example)
      (Some (2 # 1)) None None [5; 3; 1]%nat = Return view ∧
    __len__ view = 2 ∧
    row_idcode <$> metadata view = ["A2"; "A1"].
Proof. eexists. split; [reflexivity|]. by vm_compute. Qed.

(** C6: on every view, [get(i)] raises no [IndexError] for
    [0 <= i < length()], and [get(length())] raises [IndexError]. *)
Theorem C6_getitem_bounds (st : Storage) (self : ProteinDataset) :
  (∀ i, 0 ≤ i < __len__ self → __getitem__ st self i ≠ Raise IndexError) ∧
  __getitem__ st self (__len__ self) = Raise IndexError.
Proof.
  split.
  - intros i Hi. unfold __getitem__.
    destruct (iloc_in_range (metadata self) i Hi) as (row & Hrow & _).
    rewrite Hrow. simpl. unfold from_filepath.
    destruct (pdb_files st !! _); simpl; [|done]. by destruct (transform self).
  - unfold __getitem__, __len__. by rewrite iloc_at_length.
Qed.

Lemma C6_getitem_bounds_witness :
  __getitem__ empty_storage view_example 1 ≠ Raise IndexError ∧
  __getitem__ empty_storage view_example 3 = Raise IndexError.
Proof.
  destruct (C6_getitem_bounds empty_storage view_example) as [Hin Hout].
  split.
  - apply Hin. unfold __len__. simpl. lia.
  - exact Hout.
Defined.

(** C7: with the table supplied or loaded, a list of attributes that
    contains a name outside [protein_attrs] makes the constructor raise
    [AttributeError], so that no view exists to retrieve from; a list of
    recognized names makes it return a view that keeps the list.  The
    names of [protein_attrs] are the nine recognized attributes. *)
Theorem C7_allow_list_validated (st : Storage) (base : string)
    (tr : option (ProteinDatum → ProteinDatum)) (l : list string)
    (md : option DataFrame) (R : option Q) (lo hi : option Z) (draws : list nat)
    (table : DataFrame) :
  load_metadata st base md = Return table →
  ((∃ a, a ∈ l ∧ a ∉ recognized_attributes) →
     __init__ st base tr (AttrsList l) md R lo hi draws = Raise AttributeError) ∧
  ((∀ a, a ∈ l → a ∈ recognized_attributes) →
     ∃ view, __init__ st base tr (AttrsList l) md R lo hi draws = Return view ∧
             attrs view = AttrsList l).
Proof.
  intros Hload. unfold __init__. rewrite Hload. simpl. split.
  - intros (a & Hin & Hbad). rewrite check_attrs_raise; [done|].
    exists a. by rewrite protein_attrs_recognized.
  - intros Hall. rewrite check_attrs_return; [by eexists|].
    intros a Ha. by apply protein_attrs_recognized, Hall.
Qed.

Lemma C7_allow_list_validated_witness :
  __init__ empty_storage "/data" None (AttrsList ["idcode"; "bfactor"])
    (Some table_example) None None None [] = Raise AttributeError ∧
  ∃ view,
    __init__ empty_storage "/data" None (AttrsList ["idcode"; "atom_coord"])
      (Some table_example) None None None [] = Return view ∧
    attrs view = AttrsList ["idcode"; "atom_coord"].
Proof.
  split.
  - apply (C7_allow_list_validated empty_storage "/data" None ["idcode"; "bfactor"]
             (Some table_example) None None None [] table_example).
    + reflexivity.
    + exists "bfactor". split.
      * apply (bool_decide_unpack _). vm_compute. exact I.
      * apply (bool_decide_unpack _). vm_compute. exact I.
  - apply (C7_allow_list_validated empty_storage "/data" None ["idcode"; "atom_coord"]
             (Some table_example) None None None [] table_example).
    + reflexivity.
    + intros a Ha. apply list_elem_of_In in Ha. simpl in Ha.
      destruct Ha as [<-|[<-|[]]]; apply (bool_decide_unpack _); vm_compute; exact I.
Defined.

(** C10: two views constructed from the same storage, base path, table,
    transform, thresholds and shuffle state, with different allow-lists,
    answer every [get(i)] alike, whatever the storage at retrieval. *)
Theorem C10_allow_list_no_effect (st : Storage) (base : string)
    (tr : option (ProteinDatum → ProteinDatum)) (md : option DataFrame)
    (R : option Q) (lo hi : option Z) (draws : list nat)
    (a1 a2 : attrs_arg) (v1 v2 : ProteinDataset) :
  __init__ st base tr a1 md R lo hi draws = Return v1 →
  __init__ st base tr a2 md R lo hi draws = Return v2 →
  ∀ st' i, __getitem__ st' v1 i = __getitem__ st' v2 i.
Proof.
  intros H1 H2 st' i.
  destruct (init_fields _ _ _ _ _ _ _ _ _ _ H1) as (t1 & Hl1 & Hb1 & Ht1 & Hm1).
  destruct (init_fields _ _ _ _ _ _ _ _ _ _ H2) as (t2 & Hl2 & Hb2 & Ht2 & Hm2).
  rewrite Hl1 in Hl2. injection Hl2 as <-.
  apply getitem_fields; congruence.
Qed.

(** ** The worker pool *)

Lemma get_chunks_aux_concat {A} (fuel chunksize : nat) (xs : list A) :
  (0 < chunksize)%nat → (length xs ≤ fuel)%nat →
  concat (get_chunks_aux fuel chunksize xs) = xs.
Proof.
  intros Hpos. revert xs. induction fuel as [|fuel IH]; intros xs Hlen.
  - destruct xs; [done|simpl in Hlen; lia].
  - destruct xs as [|x xs]; [done|].
    change (get_chunks_aux (S fuel) chunksize (x :: xs))
      with (take chunksize (x :: xs) ::
            get_chunks_aux fuel chunksize (drop chunksize (x :: xs))).
    rewrite concat_cons, IH; [apply take_drop|].
    rewrite length_drop. simpl in *. lia.
Qed.

Lemma get_chunks_concat {A} (chunksize : nat) (xs : list A) :
  (0 < chunksize)%nat → concat (_get_chunks chunksize xs) = xs.
Proof. intros Hpos. by apply get_chunks_aux_concat. Qed.

(** The future of a task holds the result of its chunk as soon as the
    task is among the completed ones, whatever ran before or after it. *)
Lemma run_pool_acc {A B} (fn : A → outcome B) (chunks : list (list A))
    (completion : list nat) (acc : gmap nat (outcome (list B))) (i : nat) :
  foldl (λ futures i,
           match chunks !! i with
           | Some chunk => <[i := _process_chunk fn chunk]> futures
           | None => futures
           end) acc completion !! i =
  if decide (i ∈ completion) then
    match chunks !! i with
    | Some chunk => Some (_process_chunk fn chunk)
    | None => acc !! i
    end
  else acc !! i.
Proof.
  revert acc. induction completion as [|j completion IH]; intros acc.
  - simpl foldl. case_decide as Hin; [by apply elem_of_nil in Hin|done].
  - simpl foldl. rewrite IH. clear IH.
    destruct (decide (i = j)) as [Hij|Hij].
    + rewrite <- Hij. rewrite (decide_True (P := i ∈ i :: completion)) by (by left).
      destruct (chunks !! i) as [chunk|] eqn:Hchunk.
      * case_decide; [done|]. by rewrite lookup_insert_eq.
      * by case_decide.
    + assert (∀ m : gmap nat (outcome (list B)),
        match chunks !! j with
        | Some chunk => <[j := _process_chunk fn chunk]> m
        | None => m
        end !! i = m !! i) as Hother.
      { intros m. destruct (chunks !! j); [|done]. by rewrite lookup_insert_ne. }
      rewrite Hother.
      destruct (decide (i ∈ completion)) as [Hin|Hin].
      * by rewrite decide_True by (by right).
      * rewrite decide_False; [done|]. rewrite elem_of_cons. tauto.
Qed.

Lemma gather_chunks {A B} (fn : A → outcome B)
    (futures : gmap nat (outcome (list B))) (cs : list (list A)) (i : nat) :
  (∀ k chunk, cs !! k = Some chunk →
     futures !! (i + k)%nat = Some (_process_chunk fn chunk)) →
  gather futures i (length cs) = Some (map_outcome fn (concat cs)).
Proof.
  revert i. induction cs as [|chunk cs IH]; intros i Hdone; [done|].
  simpl length. simpl gather.
  rewrite <- (Nat.add_0_r i) at 1. rewrite (Hdone 0%nat chunk) by done.
  rewrite concat_cons, map_outcome_app. unfold _process_chunk.
  destruct (map_outcome fn chunk) as [ys|e]; [|done].
  rewrite IH.
  - simpl. by destruct (map_outcome fn (concat cs)).
  - intros k c Hk. replace (S i + k)%nat with (i + S k)%nat by lia. by apply Hdone.
Qed.

(** Every schedule gives the result of the sequential loop. *)
Lemma process_map_sequential {A B} (fn : A → outcome B) (xs : list A)
    (max_workers : Z) (chunksize : nat) (sched : list nat) :
  (0 < chunksize)%nat →
  process_map fn xs max_workers chunksize sched = Some (map_outcome fn xs).
Proof.
  intros Hpos. unfold process_map.
  transitivity (Some (map_outcome fn (concat (_get_chunks chunksize xs))));
    [|by rewrite get_chunks_concat].
  apply gather_chunks. intros k chunk Hk.
  unfold run_pool. rewrite run_pool_acc. simpl. rewrite Hk.
  rewrite decide_True; [done|].
  rewrite sample_frac1_perm. apply elem_of_seq.
  apply lookup_lt_Some in Hk. lia.
Qed.

(** ** The build pipeline *)

Section BuildProperties.

Variable UNK_TOKEN : Z.
Variable fetch_pdb_id : string → string → outcome ProteinDatum.

#[local] Abbreviation extractor := (_maybe_fetch_and_extract UNK_TOKEN fetch_pdb_id).
#[local] Abbreviation build_table := (build_metadata UNK_TOKEN fetch_pdb_id).

Lemma maybe_fetch_skipped (pdb_id save_path : string) :
  fetch_skipped (fetch_pdb_id pdb_id save_path) →
  extractor pdb_id save_path = Return None.
Proof.
  unfold _maybe_fetch_and_extract.
  intros [H|[H|[H|(datum & H & Hlen)]]]; rewrite H; try done.
  by rewrite bool_decide_eq_true_2.
Qed.

Lemma maybe_fetch_extractable (pdb_id save_path : string) (datum : ProteinDatum) :
  fetch_pdb_id pdb_id save_path = Return datum →
  extractable datum →
  ∃ row, _extract_datum_row UNK_TOKEN datum = Return [row] ∧
         row_idcode row = idcode datum ∧
         extractor pdb_id save_path = Return (Some [row]).
Proof.
  intros Hfetch [Hlen Hchains].
  destruct (extract_datum_row_return UNK_TOKEN datum Hchains) as (top & _ & _ & _ & Hrow).
  eexists. split; [exact Hrow|]. split; [done|].
  unfold _maybe_fetch_and_extract. rewrite Hfetch.
  rewrite bool_decide_eq_false_2 by done. by rewrite Hrow.
Qed.

(** An entry that is a row comes from a fetched record and holds one row,
    under the identifier that the record carries. *)
Lemma maybe_fetch_row (pdb_id save_path : string) (df : DataFrame) :
  extractor pdb_id save_path = Return (Some df) →
  ∃ datum row,
    fetch_pdb_id pdb_id save_path = Return datum ∧
    df = [row] ∧ row_idcode row = idcode datum.
Proof.
  unfold _maybe_fetch_and_extract.
  destruct (fetch_pdb_id pdb_id save_path) as [datum|e].
  - case_bool_decide; [done|]. unfold _extract_datum_row.
    destruct (np_max (chain_token datum)) as [top|e]; simpl; [|done].
    intros [= <-]. by eexists _, _.
  - by destruct e.
Qed.

(** Whatever the number of workers and the schedule, the table is the
    concatenation of the rows of the sequential loop. *)
Lemma build_metadata_sequential (pdb_ids : list string) (save_path : string)
    (max_workers : Z) (sched : list nat) :
  build_table pdb_ids save_path max_workers sched =
  Some (rows ← map_outcome (λ pdb_id, extractor pdb_id save_path) pdb_ids;
        Return (concat (omap id rows))).
Proof.
  unfold build_metadata, build_rows. case_bool_decide.
  - rewrite process_map_sequential by lia. done.
  - done.
Qed.

Lemma table_of_entries (save_path : string) (pdb_ids : list string)
    (rows : list (option DataFrame)) :
  Forall2 (λ pdb_id entry, extractor pdb_id save_path = Return entry) pdb_ids rows →
  Forall2 (λ pdb_id row, extractor pdb_id save_path = Return (Some [row]))
    (filter (λ pdb_id, is_processed (extractor pdb_id save_path) = true) pdb_ids)
    (concat (omap id rows)).
Proof.
  induction 1 as [|pdb_id entry pdb_ids rows Hentry _ IH]; [constructor|].
  rewrite filter_cons. destruct entry as [df|]; simpl.
  - destruct (maybe_fetch_row _ _ _ Hentry) as (datum & row & _ & -> & _).
    rewrite decide_True by (by rewrite Hentry). simpl. by constructor.
  - rewrite decide_False by (by rewrite Hentry). done.
Qed.

Lemma idcodes_of_table (save_path : string) (pdb_ids : list string) (table : DataFrame) :
  (∀ pdb_id datum, pdb_id ∈ pdb_ids →
     fetch_pdb_id pdb_id save_path = Return datum → idcode datum = pdb_id) →
  Forall2 (λ pdb_id row, extractor pdb_id save_path = Return (Some [row])) pdb_ids table →
  row_idcode <$> table = pdb_ids.
Proof.
  intros Hid. induction 1 as [|pdb_id row pdb_ids table Hrow _ IH]; [done|].
  destruct (maybe_fetch_row _ _ _ Hrow) as (datum & row' & Hfetch & [= <-] & Hcode).
  simpl. rewrite Hcode, (Hid pdb_id datum) by (done || by left).
  f_equal. apply IH. intros p d Hp. apply Hid. by right.
Qed.

End BuildProperties.

(** C3 (counterexample): the identifier ["A1"] given twice is fetched
    twice, and the table of the build holds two rows with that identifier;
    nothing is deduplicated and nothing is rejected. *)
Lemma C3_counterexample :
  ∃ st view,
    build 1 fetch_example [] "/tmp" (Some ["A1"; "A1"]) true (Some "/data") 1
      default_kwargs [] [] empty_storage = Some (st, Return view) ∧
    row_idcode <$> metadata view = ["A1"; "A1"] ∧
    hdf_files st !! "/data/metadata.h5" = Some (metadata view) ∧
    ¬ NoDup (row_idcode <$> metadata view).
Proof.
  eexists _, _. split; [reflexivity|]. split; [by vm_compute|]. split; [by vm_compute|].
  simpl. intros Hnd. apply NoDup_cons in Hnd as [Hnotin _]. apply Hnotin. by left.
Qed.

(** C3 (amended): when no identifier of the list makes the extractor
    raise, the table of the build holds exactly one row per processed
    occurrence of an identifier, in the order of the list: an identifier
    given twice and processed twice has two rows.  The identifiers of the
    rows are unique when the list has no duplicate and every fetched
    record carries the identifier it was fetched under. *)
Theorem C3_row_per_processed_occurrence (UNK_TOKEN : Z)
    (fetch_pdb_id : string → string → outcome ProteinDatum)
    (pdb_ids : list string) (save_path : string) (max_workers : Z) (sched : list nat) :
  (∀ pdb_id, pdb_id ∈ pdb_ids →
     ∃ entry, _maybe_fetch_and_extract UNK_TOKEN fetch_pdb_id pdb_id save_path = Return entry) →
  ∃ table,
    build_metadata UNK_TOKEN fetch_pdb_id pdb_ids save_path max_workers sched =
      Some (Return table) ∧
    Forall2
      (λ pdb_id row,
         _maybe_fetch_and_extract UNK_TOKEN fetch_pdb_id pdb_id save_path = Return (Some [row]))
      (filter (λ pdb_id,
                 is_processed (_maybe_fetch_and_extract UNK_TOKEN fetch_pdb_id pdb_id save_path)
                 = true) pdb_ids)
      table ∧
    (NoDup pdb_ids →
     (∀ pdb_id datum, pdb_id ∈ pdb_ids →
        fetch_pdb_id pdb_id save_path = Return datum → idcode datum = pdb_id) →
     NoDup (row_idcode <$> table)).
Proof.
  intros Hall.
  destruct (map_outcome_return
              (λ pdb_id, _maybe_fetch_and_extract UNK_TOKEN fetch_pdb_id pdb_id save_path)
              pdb_ids Hall) as (rows & Hrows & Hentries).
  exists (concat (omap id rows)).
  rewrite build_metadata_sequential, Hrows. split; [done|].
  pose proof (table_of_entries UNK_TOKEN fetch_pdb_id save_path pdb_ids rows Hentries)
    as Htable.
  split; [exact Htable|]. intros Hnodup Hid.
  rewrite (idcodes_of_table UNK_TOKEN fetch_pdb_id save_path _ _) with (2 := Htable).
  - by apply NoDup_filter.
  - intros p d [_ Hp]%list_elem_of_filter. by apply Hid.
Qed.

Lemma C3_row_per_processed_occurrence_witness :
  ∃ table,
    build_metadata 1 fetch_example ["A1"; "BAD"; "A2"] "/data" 1 [] = Some (Return table) ∧
    Forall2
      (λ pdb_id row,
         _maybe_fetch_and_extract 1 fetch_example pdb_id "/data" = Return (Some [row]))
      (filter (λ pdb_id,
                 is_processed (_maybe_fetch_and_extract 1 fetch_example pdb_id "/data") = true)
              ["A1"; "BAD"; "A2"])
      table ∧
    (NoDup ["A1"; "BAD"; "A2"] →
     (∀ pdb_id datum, pdb_id ∈ ["A1"; "BAD"; "A2"] →
        fetch_example pdb_id "/data" = Return datum → idcode datum = pdb_id) →
     NoDup (row_idcode <$> table)).
Proof.
  apply (C3_row_per_processed_occurrence 1 fetch_example ["A1"; "BAD"; "A2"] "/data" 1 []).
  intros pdb_id Hin.
  apply list_elem_of_In in Hin. simpl in Hin.
  destruct Hin as [<-|[<-|[<-|[]]]]; eexists; vm_compute; reflexivity.
Defined.

Lemma build_unfold (UNK_TOKEN : Z) (fetch_pdb_id : string → string → outcome ProteinDatum)
    (pids_all : list string) (tempdir : string) (pdb_ids : option (list string))
    (save : bool) (save_path : option string) (max_workers : Z) (kw : kwargs)
    (sched draws : list nat) (st : Storage) (table : DataFrame) :
  build_metadata UNK_TOKEN fetch_pdb_id (default pids_all pdb_ids)
    (default tempdir save_path) max_workers sched = Some (Return table) →
  build UNK_TOKEN fetch_pdb_id pids_all tempdir pdb_ids save save_path max_workers kw
    sched draws st =
  let st' := if save
             then to_hdf st (os_path_join (default tempdir save_path) "metadata.h5") table
             else st in
  Some (st', __init__ st' (default tempdir save_path) (kw_transform kw) (kw_attrs kw)
               (Some table) (kw_max_resolution kw) (kw_min_sequence_length kw)
               (kw_max_sequence_length kw) draws).
Proof. intros Htable. unfold build. by rewrite Htable. Qed.

(** C4: an identifier whose fetch raises [ValueError], [IndexError] or
    [RequestError], or returns a record of sequence length zero, gives the
    entry [None]; the table built from a list that contains it is the
    table built from the list without it; and the build over two
    extractable identifiers followed by the failing one, with one worker
    and the default keyword arguments, returns a view of exactly the two
    rows of the first two, and raises nothing. *)
Theorem C4_failed_fetch_skipped (UNK_TOKEN : Z)
    (fetch_pdb_id : string → string → outcome ProteinDatum)
    (pids_all : list string) (tempdir : string) (bad save_path : string) :
  fetch_skipped (fetch_pdb_id bad save_path) →
  _maybe_fetch_and_extract UNK_TOKEN fetch_pdb_id bad save_path = Return None ∧
  (∀ ids1 ids2 max_workers sched,
     build_metadata UNK_TOKEN fetch_pdb_id (ids1 ++ bad :: ids2) save_path max_workers sched =
     build_metadata UNK_TOKEN fetch_pdb_id (ids1 ++ ids2) save_path max_workers sched) ∧
  (∀ id1 id2 d1 d2 save sched draws st,
     fetch_pdb_id id1 save_path = Return d1 → extractable d1 →
     fetch_pdb_id id2 save_path = Return d2 → extractable d2 →
     ∃ r1 r2 st' view,
       _extract_datum_row UNK_TOKEN d1 = Return [r1] ∧
       _extract_datum_row UNK_TOKEN d2 = Return [r2] ∧
       build UNK_TOKEN fetch_pdb_id pids_all tempdir (Some [id1; id2; bad]) save
         (Some save_path) 1 default_kwargs sched draws st = Some (st', Return view) ∧
       metadata view ≡ₚ [r1; r2] ∧
       __len__ view = 2 ∧
       (save = true → hdf_files st' !! os_path_join save_path "metadata.h5" = Some [r1; r2])).
Proof.
  intros Hbad.
  pose proof (maybe_fetch_skipped UNK_TOKEN fetch_pdb_id bad save_path Hbad) as Hnone.
  split; [exact Hnone|]. split.
  - intros ids1 ids2 max_workers sched. rewrite !build_metadata_sequential. f_equal.
    rewrite !map_outcome_app. simpl map_outcome. rewrite Hnone. simpl.
    destruct (map_outcome _ ids1) as [a|e]; simpl; [|done].
    destruct (map_outcome _ ids2) as [b|e]; simpl; [|done].
    by rewrite !omap_app.
  - intros id1 id2 d1 d2 save sched draws st Hf1 Hd1 Hf2 Hd2.
    destruct (maybe_fetch_extractable UNK_TOKEN fetch_pdb_id id1 save_path d1 Hf1 Hd1)
      as (r1 & Hr1 & _ & He1).
    destruct (maybe_fetch_extractable UNK_TOKEN fetch_pdb_id id2 save_path d2 Hf2 Hd2)
      as (r2 & Hr2 & _ & He2).
    assert (build_metadata UNK_TOKEN fetch_pdb_id [id1; id2; bad] save_path 1 sched
            = Some (Return [r1; r2])) as Htable.
    { rewrite build_metadata_sequential. simpl. by rewrite He1, He2, Hnone. }
    exists r1, r2,
      (if save then to_hdf st (os_path_join save_path "metadata.h5") [r1; r2] else st),
      {| base_path := save_path; metadata := sample_frac1 draws [r1; r2];
         transform := None; attrs := AttrsList protein_attrs |}.
    split; [exact Hr1|]. split; [exact Hr2|]. split.
    + by rewrite (build_unfold _ _ _ _ _ _ _ _ _ _ _ _ [r1; r2]) by exact Htable.
    + split; [apply sample_frac1_perm|]. split.
      * unfold __len__. cbn [metadata]. by rewrite sample_frac1_length.
      * intros ->. cbn [to_hdf hdf_files]. apply lookup_insert_eq.
Qed.

Lemma C4_failed_fetch_skipped_witness :
  ∃ r1 r2 st' view,
    _extract_datum_row 1 (mk_datum "A1" (Some (3 # 2)) "GAV" [0; 0; 1]) = Return [r1] ∧
    _extract_datum_row 1 (mk_datum "A2" (Some (3 # 2)) "GAV" [0; 0; 1]) = Return [r2] ∧
    build 1 fetch_example [] "/tmp" (Some ["A1"; "A2"; "BAD"]) true (Some "/data") 1
      default_kwargs [] [] empty_storage = Some (st', Return view) ∧
    metadata view ≡ₚ [r1; r2] ∧
    __len__ view = 2 ∧
    (true = true → hdf_files st' !! os_path_join "/data" "metadata.h5" = Some [r1; r2]).
Proof.
  destruct (C4_failed_fetch_skipped 1 fetch_example [] "/tmp" "BAD" "/data")
    as (_ & _ & Hscenario).
  - left. reflexivity.
  - apply Hscenario.
    + reflexivity.
    + split; vm_compute; discriminate.
    + reflexivity.
    + split; vm_compute; discriminate.
Defined.

(** C9: for every list of identifiers, every number of workers above one
    and every schedule of the pool, the parallel build terminates and its
    table, its stored table and its view are those of the sequential
    build over the same identifiers and fetch outcomes. *)
Theorem C9_parallel_same_table (UNK_TOKEN : Z)
    (fetch_pdb_id : string → string → outcome ProteinDatum)
    (pids_all : list string) (tempdir : string) (pdb_ids : option (list string))
    (save : bool) (save_path : option string) (max_workers : Z) (kw : kwargs)
    (sched sched' draws : list nat) (st : Storage) :
  1 < max_workers →
  is_Some (build_metadata UNK_TOKEN fetch_pdb_id (default pids_all pdb_ids)
             (default tempdir save_path) max_workers sched) ∧
  build_metadata UNK_TOKEN fetch_pdb_id (default pids_all pdb_ids)
    (default tempdir save_path) max_workers sched =
  build_metadata UNK_TOKEN fetch_pdb_id (default pids_all pdb_ids)
    (default tempdir save_path) 1 sched' ∧
  build UNK_TOKEN fetch_pdb_id pids_all tempdir pdb_ids save save_path max_workers kw
    sched draws st =
  build UNK_TOKEN fetch_pdb_id pids_all tempdir pdb_ids save save_path 1 kw
    sched' draws st.
Proof.
  intros _. unfold build. rewrite !build_metadata_sequential. by split; [eexists|].
Qed.

Lemma C9_parallel_same_table_witness :
  is_Some (build_metadata 1 fetch_example ["A1"; "BAD"; "A2"] "/data" 4 [2; 0; 1]%nat) ∧
  build_metadata 1 fetch_example ["A1"; "BAD"; "A2"] "/data" 4 [2; 0; 1]%nat =
  build_metadata 1 fetch_example ["A1"; "BAD"; "A2"] "/data" 1 [] ∧
  build 1 fetch_example [] "/tmp" (Some ["A1"; "BAD"; "A2"]) true (Some "/data") 4
    default_kwargs [2; 0; 1]%nat [7]%nat empty_storage =
  build 1 fetch_example [] "/tmp" (Some ["A1"; "BAD"; "A2"]) true (Some "/data") 1
    default_kwargs [] [7]%nat empty_storage.
Proof.
  apply (C9_parallel_same_table 1 fetch_example [] "/tmp" (Some ["A1"; "BAD"; "A2"])
           true (Some "/data") 4 default_kwargs [2; 0; 1]%nat [] [7]%nat empty_storage).
  lia.
Defined.

Lemma C10_allow_list_no_effect_witness :
  ∃ v1 v2,
    __init__ empty_storage "/data" None (AttrsStr "all") (Some table_example)
      (Some (2 # 1)) None None [5; 3; 1]%nat = Return v1 ∧
    __init__ empty_storage "/data" None (AttrsList ["idcode"; "atom_coord"])
      (Some table_example) (Some (2 # 1)) None None [5; 3; 1]%nat = Return v2 ∧
    __getitem__ storage_example v1 0 = __getitem__ storage_example v2 0.
Proof.
  eexists _, _. split; [reflexivity|]. split; [reflexivity|].
  apply (C10_allow_list_no_effect empty_storage "/data" None (Some table_example)
           (Some (2 # 1)) None None [5; 3; 1]%nat
           (AttrsStr "all") (AttrsList ["idcode"; "atom_coord"])); reflexivity.
Defined.

(** * Further properties of the extractor *)

Lemma filter_none {A} (P : A → Prop) `{∀ x, Decision (P x)} (l : list A) :
  (∀ x, x ∈ l → ¬ P x) → filter P l = [].
Proof.
  induction l as [|x l IH]; intros Hnone; [done|].
  rewrite filter_cons_False by (apply Hnone; by left).
  apply IH. intros y Hy. apply Hnone. by right.
Qed.

Lemma filter_all {A} (P : A → Prop) `{∀ x, Decision (P x)} (l : list A) :
  (∀ x, x ∈ l → P x) → filter P l = l.
Proof.
  induction l as [|x l IH]; intros Hall; [done|].
  rewrite filter_cons_True by (apply Hall; by left).
  f_equal. apply IH. intros y Hy. apply Hall. by right.
Qed.

(** The residues below [S k] are those below [k] and those of chain [k]. *)
Lemma count_below_succ (tokens : list Z) (k : Z) :
  0 ≤ k →
  length (filter (λ t, 0 ≤ t < k + 1) tokens) =
  Nat.add (length (filter (λ t, t = k) tokens)) (length (filter (λ t, 0 ≤ t < k) tokens)).
Proof.
  intros Hk. induction tokens as [|t tokens IH]; [done|].
  rewrite !filter_cons.
  destruct (decide (t = k)) as [->|Hne].
  - rewrite decide_True by lia. rewrite decide_False by lia. simpl. by rewrite IH.
  - destruct (decide (0 ≤ t < k)) as [Hlt|Hge].
    + rewrite decide_True by lia. simpl. rewrite IH. lia.
    + rewrite decide_False by lia. exact IH.
Qed.

Lemma chain_loop_snoc (tokens chains : list Z) (c : Z) :
  chain_loop tokens (chains ++ [c]) = <[c := count_eq c tokens]> (chain_loop tokens chains).
Proof. unfold chain_loop. by rewrite foldl_snoc. Qed.

Lemma py_range_succ (k : nat) :
  py_range (Z.of_nat (S k)) = py_range (Z.of_nat k) ++ [Z.of_nat k].
Proof.
  unfold py_range. rewrite !Nat2Z.id, seq_S, fmap_app. done.
Qed.

Lemma sum_counts_chain_loop (tokens : list Z) (k : nat) :
  sum_counts (chain_loop tokens (py_range (Z.of_nat k))) =
  Z.of_nat (length (filter (λ t, 0 ≤ t < Z.of_nat k) tokens)).
Proof.
  induction k as [|k IH].
  - unfold sum_counts. change (chain_loop tokens (py_range (Z.of_nat 0))) with (∅ : gmap Z Z).
    rewrite map_fold_empty. rewrite filter_none; [done|]. intros t _. simpl. lia.
  - rewrite py_range_succ, chain_loop_snoc. unfold sum_counts.
    rewrite map_fold_insert_L.
    + fold (sum_counts (chain_loop tokens (py_range (Z.of_nat k)))). rewrite IH.
      replace (Z.of_nat (S k)) with (Z.of_nat k + 1) by lia.
      rewrite count_below_succ by lia. unfold count_eq. lia.
    + intros. lia.
    + rewrite chain_loop_lookup. rewrite decide_False; [done|lia].
Qed.

Lemma sum_counts_range (tokens : list Z) (top : Z) :
  sum_counts (chain_loop tokens (py_range top)) =
  Z.of_nat (length (filter (λ t, 0 ≤ t < top) tokens)).
Proof.
  destruct (decide (0 ≤ top)) as [Hpos|Hneg].
  - rewrite <- (Z2Nat.id top) by done. apply sum_counts_chain_loop.
  - replace (py_range top) with (@nil Z).
    + unfold sum_counts. change (chain_loop tokens []) with (∅ : gmap Z Z).
      rewrite map_fold_empty. rewrite filter_none; [done|]. intros t _. lia.
    + unfold py_range. by replace (Z.to_nat top) with 0%nat by lia.
Qed.

(** X1: extraction raises exactly on a record without chain assignment,
    and then a [ValueError]; on every other record it returns one row. *)
Theorem extract_raises_iff_no_chain (UNK_TOKEN : Z) (datum : ProteinDatum) :
  (_extract_datum_row UNK_TOKEN datum = Raise ValueError ↔ chain_token datum = []) ∧
  (∀ e, _extract_datum_row UNK_TOKEN datum = Raise e → e = ValueError) ∧
  (∀ df, _extract_datum_row UNK_TOKEN datum = Return df → length df = 1%nat).
Proof.
  destruct (decide (chain_token datum = [])) as [Hnil|Hne].
  - rewrite (extract_datum_row_raise _ _ Hnil). repeat split; try done.
    by intros e [= <-].
  - destruct (extract_datum_row_return UNK_TOKEN datum Hne) as (top & _ & _ & _ & ->).
    repeat split; try done. by intros df [= <-].
Qed.

(** X2: the row of a record holds a count for exactly the chain indices
    from 0 up to, and not including, the largest chain index of the
    record; each count is the number of residues of that chain. *)
Theorem extracted_counts_below_top (UNK_TOKEN : Z) (datum : ProteinDatum) (top : Z) :
  np_max (chain_token datum) = Return top →
  ∃ row,
    _extract_datum_row UNK_TOKEN datum = Return [row] ∧
    ∀ c n, num_res_chain row !! c = Some n ↔
           0 ≤ c < top ∧ n = count_eq c (chain_token datum).
Proof.
  intros Hmax. unfold _extract_datum_row. rewrite Hmax. simpl.
  eexists. split; [done|]. intros c n. simpl. rewrite chain_loop_lookup.
  case_decide as Hc.
  - split; [by intros [= <-]|]. by intros [_ ->].
  - split; [done|]. by intros [Hc' _].
Qed.

Lemma extracted_counts_below_top_witness :
  ∃ row,
    _extract_datum_row 1 datum_many_chains = Return [row] ∧
    ∀ c n, num_res_chain row !! c = Some n ↔
           0 ≤ c < 33 ∧ n = count_eq c (chain_token datum_many_chains).
Proof. apply (extracted_counts_below_top 1 datum_many_chains 33). reflexivity. Defined.

(** X3: the per-chain counts of a row add up to the number of residues
    whose chain index lies from 0 up to, and not including, the largest;
    when no chain index is negative, they add up to the number of chain
    assignments less the residues of the last chain, so never to all. *)
Theorem extracted_counts_sum (UNK_TOKEN : Z) (datum : ProteinDatum) :
  chain_token datum ≠ [] →
  ∃ row top,
    _extract_datum_row UNK_TOKEN datum = Return [row] ∧
    np_max (chain_token datum) = Return top ∧
    sum_counts (num_res_chain row) =
      Z.of_nat (length (filter (λ t, 0 ≤ t < top) (chain_token datum))) ∧
    ((∀ t, t ∈ chain_token datum → 0 ≤ t) →
       sum_counts (num_res_chain row) + count_eq top (chain_token datum) =
         Z.of_nat (length (chain_token datum)) ∧
       sum_counts (num_res_chain row) < Z.of_nat (length (chain_token datum))).
Proof.
  intros Hne.
  destruct (extract_datum_row_return UNK_TOKEN datum Hne) as (top & Hmax & Hin & Hle & Hrow).
  eexists _, top. split; [exact Hrow|]. split; [done|]. simpl.
  rewrite sum_counts_range. split; [done|]. intros Hnonneg.
  assert (0 ≤ top) as Htop by (by apply Hnonneg).
  assert (length (chain_token datum) =
          length (filter (λ t, 0 ≤ t < top + 1) (chain_token datum))) as Hall.
  { rewrite filter_all; [done|]. intros t Ht.
    specialize (Hle t Ht). specialize (Hnonneg t Ht). lia. }
  rewrite count_below_succ in Hall by done.
  assert (0 < length (filter (λ t, t = top) (chain_token datum)))%nat as Hlast.
  { destruct (filter (λ t, t = top) (chain_token datum)) as [|x l] eqn:Hf; [|simpl; lia].
    exfalso. assert (top ∈ filter (λ t, t = top) (chain_token datum)) as Hmem
      by (by apply list_elem_of_filter).
    rewrite Hf in Hmem. by apply elem_of_nil in Hmem. }
  unfold count_eq. lia.
Qed.

Lemma extracted_counts_sum_witness :
  ∃ row top,
    _extract_datum_row 1 datum_two_chains = Return [row] ∧
    np_max (chain_token datum_two_chains) = Return top ∧
    sum_counts (num_res_chain row) =
      Z.of_nat (length (filter (λ t, 0 ≤ t < top) (chain_token datum_two_chains))) ∧
    ((∀ t, t ∈ chain_token datum_two_chains → 0 ≤ t) →
       sum_counts (num_res_chain row) + count_eq top (chain_token datum_two_chains) =
         Z.of_nat (length (chain_token datum_two_chains)) ∧
       sum_counts (num_res_chain row) < Z.of_nat (length (chain_token datum_two_chains))).
Proof. apply (extracted_counts_sum 1 datum_two_chains). vm_compute. discriminate. Defined.

(** X4: the row of a record whose chain indices are all 0 (or below) has
    no chain-0 count, so as soon as a minimum or a maximum sequence length
    is supplied, no view holds that row. *)
Theorem single_chain_row_filtered_out (UNK_TOKEN : Z) (datum : ProteinDatum)
    (row : MetadataRow) (st : Storage) (base : string)
    (tr : option (ProteinDatum → ProteinDatum)) (a : attrs_arg)
    (md : option DataFrame) (R : option Q) (lo hi : option Z) (draws : list nat)
    (view : ProteinDataset) :
  _extract_datum_row UNK_TOKEN datum = Return [row] →
  (∀ c, c ∈ chain_token datum → c ≤ 0) →
  is_Some lo ∨ is_Some hi →
  __init__ st base tr a md R lo hi draws = Return view →
  num_res_chain row !! 0 = None ∧ row ∉ metadata view.
Proof.
  intros Hrow Hsingle Hlen Hview.
  assert (num_res_chain row !! 0 = None) as Hnone.
  { destruct (decide (chain_token datum = [])) as [Hnil|Hne].
    - by rewrite (extract_datum_row_raise _ _ Hnil) in Hrow.
    - destruct (extract_datum_row_return UNK_TOKEN datum Hne)
        as (top & _ & Hin & _ & Hrow').
      rewrite Hrow in Hrow'. injection Hrow' as ->. simpl.
      rewrite chain_loop_lookup. rewrite decide_False; [done|].
      specialize (Hsingle top Hin). lia. }
  split; [exact Hnone|].
  destruct (init_fields _ _ _ _ _ _ _ _ _ _ Hview) as (table & _ & _ & _ & Hmd).
  rewrite Hmd, sample_frac1_perm. intros [Hpass _]%list_elem_of_filter.
  destruct Hpass as (_ & Hlo & Hhi). rewrite Hnone in Hlo, Hhi.
  destruct Hlen as [[x ->]|[x ->]]; [exact Hlo|exact Hhi].
Qed.

Lemma single_chain_row_filtered_out_witness :
  num_res_chain row_one_chain !! 0 = None ∧
  row_one_chain ∉ metadata
    {| base_path := "/data"; metadata := [];
       transform := None; attrs := AttrsList protein_attrs |}.
Proof.
  apply (single_chain_row_filtered_out 1 datum_one_chain row_one_chain empty_storage
           "/data" None (AttrsStr "all") (Some [row_one_chain]) None (Some 1) None []).
  - reflexivity.
  - intros c Hc. apply list_elem_of_In in Hc. simpl in Hc.
    destruct Hc as [<-|[<-|[<-|[]]]]; lia.
  - left. by eexists.
  - reflexivity.
Defined.

(** * Further properties of the fetch step *)

Lemma extract_never_empty_entry (UNK_TOKEN : Z) (datum : ProteinDatum) :
  (row ← _extract_datum_row UNK_TOKEN datum; Return (Some row)) ≠ Return None.
Proof. by destruct (_extract_datum_row UNK_TOKEN datum). Qed.

(** X5: the entry of an identifier is [None] in no other case than a
    fetch that raises [ValueError], [IndexError] or [RequestError], or
    that returns a record of sequence length zero. *)
Theorem entry_none_iff_skipped (UNK_TOKEN : Z)
    (fetch_pdb_id : string → string → outcome ProteinDatum) (pdb_id save_path : string) :
  _maybe_fetch_and_extract UNK_TOKEN fetch_pdb_id pdb_id save_path = Return None ↔
  fetch_skipped (fetch_pdb_id pdb_id save_path).
Proof.
  split; [|apply maybe_fetch_skipped].
  unfold _maybe_fetch_and_extract, fetch_skipped.
  destruct (fetch_pdb_id pdb_id save_path) as [datum|e].
  - case_bool_decide as Hlen.
    + intros _. right. right. right. by exists datum.
    + intros Hnone. by apply extract_never_empty_entry in Hnone.
  - destruct e; intros Hnone; try done; auto.
Qed.

(** X6: the entry of an identifier is a frame exactly when the fetch
    returns a record with at least one residue and one chain assignment;
    the frame is the one row that extraction gives for that record. *)
Theorem entry_row_iff_extractable (UNK_TOKEN : Z)
    (fetch_pdb_id : string → string → outcome ProteinDatum) (pdb_id save_path : string)
    (df : DataFrame) :
  _maybe_fetch_and_extract UNK_TOKEN fetch_pdb_id pdb_id save_path = Return (Some df) ↔
  ∃ datum row,
    fetch_pdb_id pdb_id save_path = Return datum ∧
    extractable datum ∧
    df = [row] ∧
    _extract_datum_row UNK_TOKEN datum = Return [row].
Proof.
  split.
  - unfold _maybe_fetch_and_extract.
    destruct (fetch_pdb_id pdb_id save_path) as [datum|e]; [|by destruct e].
    case_bool_decide as Hlen; [done|].
    destruct (decide (chain_token datum = [])) as [Hnil|Hne].
    + by rewrite (extract_datum_row_raise _ _ Hnil).
    + destruct (extract_datum_row_return UNK_TOKEN datum Hne) as (top & _ & _ & _ & Hrow).
      rewrite Hrow. simpl. intros [= <-]. by eexists datum, _.
  - intros (datum & row & Hfetch & Hext & -> & Hrow).
    destruct (maybe_fetch_extractable UNK_TOKEN fetch_pdb_id pdb_id save_path datum
                Hfetch Hext) as (row' & Hrow' & _ & Hentry).
    rewrite Hrow in Hrow'. by injection Hrow' as ->.
Qed.

(** What the [except] clauses make of an exception of the fetch. *)
Lemma maybe_fetch_on_raise (UNK_TOKEN : Z)
    (fetch_pdb_id : string → string → outcome ProteinDatum) (pdb_id save_path : string)
    (e : exn) :
  fetch_pdb_id pdb_id save_path = Raise e →
  _maybe_fetch_and_extract UNK_TOKEN fetch_pdb_id pdb_id save_path =
  match e with
  | KeyboardInterrupt => Raise SystemExit
  | ValueError | IndexError | RequestError => Return None
  | _ => Raise e
  end.
Proof. intros Hfetch. unfold _maybe_fetch_and_extract. rewrite Hfetch. by destruct e. Qed.

(** X7: the fetch step raises in three cases only: [SystemExit] for an
    interrupted fetch; the exception of the fetch itself when that is not
    one of the four it handles; [ValueError] for a fetched record that has
    residues but no chain assignment.  A [KeyboardInterrupt], an
    [IndexError] or a [RequestError] never leaves it. *)
Theorem entry_raises_iff (UNK_TOKEN : Z)
    (fetch_pdb_id : string → string → outcome ProteinDatum) (pdb_id save_path : string)
    (e : exn) :
  (_maybe_fetch_and_extract UNK_TOKEN fetch_pdb_id pdb_id save_path = Raise e ↔
   (fetch_pdb_id pdb_id save_path = Raise KeyboardInterrupt ∧ e = SystemExit) ∨
   (fetch_pdb_id pdb_id save_path = Raise e ∧
    e ≠ KeyboardInterrupt ∧ e ≠ ValueError ∧ e ≠ IndexError ∧ e ≠ RequestError) ∨
   (∃ datum, fetch_pdb_id pdb_id save_path = Return datum ∧
             py_len (sequence datum) ≠ 0 ∧ chain_token datum = [] ∧ e = ValueError)) ∧
  (_maybe_fetch_and_extract UNK_TOKEN fetch_pdb_id pdb_id save_path = Raise e →
   e ≠ KeyboardInterrupt ∧ e ≠ IndexError ∧ e ≠ RequestError).
Proof.
  destruct (fetch_pdb_id pdb_id save_path) as [datum|e'] eqn:Hfetch.
  - unfold _maybe_fetch_and_extract. rewrite Hfetch.
    case_bool_decide as Hlen.
    + split; [|done]. split; [done|].
      intros [[Hf _]|[[Hf _]|(d & Hf & Hne & _)]]; try done.
      by injection Hf as <-.
    + destruct (decide (chain_token datum = [])) as [Hnil|Hne].
      * rewrite (extract_datum_row_raise _ _ Hnil). simpl. split.
        -- split.
           ++ intros [= <-]. right. right. by exists datum.
           ++ intros [[Hf _]|[[Hf _]|(d & _ & _ & _ & ->)]]; done.
        -- by intros [= <-].
      * destruct (extract_datum_row_return UNK_TOKEN datum Hne)
          as (top & _ & _ & _ & ->). simpl. split; [|done]. split; [done|].
        intros [[Hf _]|[[Hf _]|(d & Hf & _ & Hnil & _)]]; try done.
        injection Hf as <-. done.
  - rewrite (maybe_fetch_on_raise _ _ _ _ _ Hfetch). split.
    + split.
      * destruct e'; intros He; try done; injection He as <-;
          first [ by left | right; left; by repeat split ].
      * intros [[Hf ->]|[[Hf Hne]|(d & Hf & _)]]; [| |done].
        -- by injection Hf as ->.
        -- injection Hf as ->. destruct Hne as (? & ? & ? & ?). by destruct e.
    + destruct e'; intros He; try done; by injection He as <-.
Qed.

(** * Further properties of retrieval *)

Lemma iloc_outside (df : DataFrame) (idx : Z) :
  idx < - Z.of_nat (length df) ∨ Z.of_nat (length df) ≤ idx →
  iloc df idx = Raise IndexError.
Proof.
  intros Hout. unfold iloc. cbv zeta.
  destruct (bool_decide (idx < 0)) eqn:Hneg.
  - apply bool_decide_eq_true in Hneg. by rewrite bool_decide_eq_false_2 by lia.
  - apply bool_decide_eq_false in Hneg. by rewrite bool_decide_eq_false_2 by lia.
Qed.

Lemma iloc_negative (df : DataFrame) (idx : Z) :
  - Z.of_nat (length df) ≤ idx < 0 →
  iloc df idx = iloc df (idx + Z.of_nat (length df)).
Proof.
  intros Hneg. unfold iloc. cbv zeta.
  rewrite (bool_decide_eq_true_2 (idx < 0)) by lia.
  by rewrite (bool_decide_eq_false_2 (idx + Z.of_nat (length df) < 0)) by lia.
Qed.

Lemma iloc_inside (df : DataFrame) (idx : Z) :
  - Z.of_nat (length df) ≤ idx < Z.of_nat (length df) →
  ∃ row, iloc df idx = Return row ∧ row ∈ df.
Proof.
  intros Hin. destruct (decide (idx < 0)) as [Hneg|Hpos].
  - rewrite iloc_negative by lia.
    destruct (iloc_in_range df (idx + Z.of_nat (length df))) as (row & Hrow & Hlook); [lia|].
    exists row. split; [done|]. by eapply list_elem_of_lookup_2.
  - destruct (iloc_in_range df idx) as (row & Hrow & Hlook); [lia|].
    exists row. split; [done|]. by eapply list_elem_of_lookup_2.
Qed.

(** * Further properties of the build *)

Lemma map_outcome_first_raise {A B} (f : A → outcome B) (xs1 xs2 : list A) (bad : A)
    (e : exn) :
  (∀ x, x ∈ xs1 → ∃ y, f x = Return y) →
  f bad = Raise e →
  map_outcome f (xs1 ++ bad :: xs2) = Raise e.
Proof.
  intros Hbefore Hbad.
  destruct (map_outcome_return f xs1 Hbefore) as (ys & Hys & _).
  rewrite map_outcome_app, Hys. simpl. by rewrite Hbad.
Qed.

Lemma map_outcome_all_none {A B} (f : A → outcome (option B)) (xs : list A) :
  (∀ x, x ∈ xs → f x = Return None) →
  ∃ rows, map_outcome f xs = Return rows ∧ omap id rows = [].
Proof.
  induction xs as [|x xs IH]; intros Hnone; [by exists []|].
  destruct IH as (rows & Hrows & Hempty); [intros y Hy; apply Hnone; by right|].
  exists (None :: rows). simpl. rewrite Hnone by (by left). simpl.
  by rewrite Hrows.
Qed.

(** X8: the first identifier, in the order of the list, whose fetch step
    raises decides the build: the build raises that exception, whatever
    the number of workers and the schedule, and it writes no table. *)
Theorem build_aborts_on_first_raise (UNK_TOKEN : Z)
    (fetch_pdb_id : string → string → outcome ProteinDatum)
    (pids_all : list string) (tempdir : string) (ids1 ids2 : list string)
    (bad save_path : string) (save : bool) (max_workers : Z) (kw : kwargs)
    (sched draws : list nat) (st : Storage) (e : exn) :
  (∀ pdb_id, pdb_id ∈ ids1 →
     ∃ entry, _maybe_fetch_and_extract UNK_TOKEN fetch_pdb_id pdb_id save_path = Return entry) →
  _maybe_fetch_and_extract UNK_TOKEN fetch_pdb_id bad save_path = Raise e →
  build UNK_TOKEN fetch_pdb_id pids_all tempdir (Some (ids1 ++ bad :: ids2)) save
    (Some save_path) max_workers kw sched draws st = Some (st, Raise e).
Proof.
  intros Hbefore Hbad. unfold build. rewrite build_metadata_sequential. simpl.
  rewrite (map_outcome_first_raise
             (λ pdb_id, _maybe_fetch_and_extract UNK_TOKEN fetch_pdb_id pdb_id save_path)
             ids1 ids2 bad e Hbefore Hbad).
  done.
Qed.

Lemma build_aborts_on_first_raise_witness :
  build 1 fetch_outcomes [] "/tmp" (Some (["A1"; "GONE"] ++ "STOP" :: ["A2"])) true
    (Some "/data") 4 default_kwargs [1; 0]%nat [] empty_storage =
  Some (empty_storage, Raise SystemExit).
Proof.
  apply (build_aborts_on_first_raise 1 fetch_outcomes [] "/tmp" ["A1"; "GONE"] ["A2"]
           "STOP" "/data" true 4 default_kwargs [1; 0]%nat [] empty_storage SystemExit).
  - intros pdb_id Hin. apply list_elem_of_In in Hin. simpl in Hin.
    destruct Hin as [<-|[<-|[]]]; eexists; vm_compute; reflexivity.
  - reflexivity.
Defined.

(** X9: the allow-list handed to [build] is looked at last: when every
    fetch step returns and the list names an unknown attribute, the build
    raises [AttributeError] after the table has been written. *)
Theorem build_writes_before_validating (UNK_TOKEN : Z)
    (fetch_pdb_id : string → string → outcome ProteinDatum)
    (pids_all : list string) (tempdir : string) (pdb_ids : list string)
    (save_path : string) (max_workers : Z) (kw : kwargs) (l : list string)
    (sched draws : list nat) (st : Storage) :
  (∀ pdb_id, pdb_id ∈ pdb_ids →
     ∃ entry, _maybe_fetch_and_extract UNK_TOKEN fetch_pdb_id pdb_id save_path = Return entry) →
  kw_attrs kw = AttrsList l →
  (∃ a, a ∈ l ∧ a ∉ protein_attrs) →
  ∃ table,
    build_metadata UNK_TOKEN fetch_pdb_id pdb_ids save_path max_workers sched =
      Some (Return table) ∧
    build UNK_TOKEN fetch_pdb_id pids_all tempdir (Some pdb_ids) true (Some save_path)
      max_workers kw sched draws st =
    Some (to_hdf st (os_path_join save_path "metadata.h5") table, Raise AttributeError) ∧
    build UNK_TOKEN fetch_pdb_id pids_all tempdir (Some pdb_ids) false (Some save_path)
      max_workers kw sched draws st = Some (st, Raise AttributeError).
Proof.
  intros Hall Hattrs Hbad.
  destruct (map_outcome_return
              (λ pdb_id, _maybe_fetch_and_extract UNK_TOKEN fetch_pdb_id pdb_id save_path)
              pdb_ids Hall) as (rows & Hrows & _).
  assert (build_metadata UNK_TOKEN fetch_pdb_id pdb_ids save_path max_workers sched =
          Some (Return (concat (omap id rows)))) as Htable
    by (by rewrite build_metadata_sequential, Hrows).
  exists (concat (omap id rows)). split; [exact Htable|].
  rewrite !(build_unfold _ _ _ _ (Some pdb_ids) _ (Some save_path) _ _ _ _ _ _ Htable).
  unfold __init__. rewrite Hattrs. simpl.
  by rewrite (check_attrs_raise l Hbad).
Qed.

Lemma build_writes_before_validating_witness :
  ∃ table,
    build_metadata 1 fetch_outcomes ["A1"; "GONE"] "/data" 1 [] = Some (Return table) ∧
    build 1 fetch_outcomes [] "/tmp" (Some ["A1"; "GONE"]) true (Some "/data") 1
      {| kw_transform := None; kw_attrs := AttrsList ["bfactor"]; kw_max_resolution := None;
         kw_min_sequence_length := None; kw_max_sequence_length := None |} [] []
      empty_storage =
    Some (to_hdf empty_storage (os_path_join "/data" "metadata.h5") table,
          Raise AttributeError) ∧
    build 1 fetch_outcomes [] "/tmp" (Some ["A1"; "GONE"]) false (Some "/data") 1
      {| kw_transform := None; kw_attrs := AttrsList ["bfactor"]; kw_max_resolution := None;
         kw_min_sequence_length := None; kw_max_sequence_length := None |} [] []
      empty_storage = Some (empty_storage, Raise AttributeError).
Proof.
  apply (build_writes_before_validating 1 fetch_outcomes [] "/tmp" ["A1"; "GONE"] "/data" 1
           _ ["bfactor"] [] [] empty_storage).
  - intros pdb_id Hin. apply list_elem_of_In in Hin. simpl in Hin.
    destruct Hin as [<-|[<-|[]]]; eexists; vm_compute; reflexivity.
  - reflexivity.
  - exists "bfactor". split; apply (bool_decide_unpack _); vm_compute; exact I.
Defined.

(** X10: a table written by [build] reads back: constructing a dataset
    from the written storage and the same base path, without handing over
    a table, gives the view that [build] returned, for the same keyword
    arguments and shuffle. *)
Theorem build_then_reload (UNK_TOKEN : Z)
    (fetch_pdb_id : string → string → outcome ProteinDatum)
    (pids_all : list string) (tempdir : string) (pdb_ids : option (list string))
    (save_path : option string) (max_workers : Z) (kw : kwargs)
    (sched draws : list nat) (st st' : Storage) (view : ProteinDataset) :
  build UNK_TOKEN fetch_pdb_id pids_all tempdir pdb_ids true save_path max_workers kw
    sched draws st = Some (st', Return view) →
  ∃ table,
    build_metadata UNK_TOKEN fetch_pdb_id (default pids_all pdb_ids)
      (default tempdir save_path) max_workers sched = Some (Return table) ∧
    read_hdf st' (os_path_join (default tempdir save_path) "metadata.h5") = Return table ∧
    __init__ st' (default tempdir save_path) (kw_transform kw) (kw_attrs kw) None
      (kw_max_resolution kw) (kw_min_sequence_length kw) (kw_max_sequence_length kw) draws =
    Return view.
Proof.
  unfold build. rewrite build_metadata_sequential. simpl.
  destruct (map_outcome _ (default pids_all pdb_ids)) as [rows|e]; simpl; [|done].
  intros [= <- Hview]. exists (concat (omap id rows)). split; [done|].
  assert (read_hdf (to_hdf st (os_path_join (default tempdir save_path) "metadata.h5")
                      (concat (omap id rows)))
            (os_path_join (default tempdir save_path) "metadata.h5") =
          Return (concat (omap id rows))) as Hread.
  { unfold read_hdf, to_hdf. simpl. by rewrite lookup_insert_eq. }
  split; [exact Hread|].
  rewrite <- Hview. unfold __init__, load_metadata. by rewrite Hread.
Qed.

Lemma build_then_reload_witness :
  ∃ table,
    build_metadata 1 fetch_outcomes ["A1"; "VOID"; "A2"] "/tmp" 1 [] = Some (Return table) ∧
    read_hdf (to_hdf empty_storage "/tmp/metadata.h5" rows_example) "/tmp/metadata.h5"
      = Return table ∧
    __init__ (to_hdf empty_storage "/tmp/metadata.h5" rows_example) "/tmp" None
      (AttrsStr "all") None None None None [4]%nat =
    Return {| base_path := "/tmp"; metadata := sample_frac1 [4]%nat rows_example;
              transform := None; attrs := AttrsList protein_attrs |}.
Proof.
  apply (build_then_reload 1 fetch_outcomes [] "/tmp" (Some ["A1"; "VOID"; "A2"]) None 1
           default_kwargs [] [4]%nat empty_storage).
  reflexivity.
Defined.

(** X11: when every identifier of the list is skipped, and so for the
    empty list, the build returns an empty view, provided the allow-list
    is valid; every retrieval from that view raises [IndexError]. *)
Theorem build_all_skipped_empty_view (UNK_TOKEN : Z)
    (fetch_pdb_id : string → string → outcome ProteinDatum)
    (pids_all : list string) (tempdir : string) (pdb_ids : list string)
    (save_path : string) (save : bool) (max_workers : Z) (kw : kwargs)
    (sched draws : list nat) (st : Storage) :
  (∀ pdb_id, pdb_id ∈ pdb_ids → fetch_skipped (fetch_pdb_id pdb_id save_path)) →
  eq_all (kw_attrs kw) = true ∨ (∀ a, a ∈ attrs_iter (kw_attrs kw) → a ∈ protein_attrs) →
  ∃ st' view,
    build UNK_TOKEN fetch_pdb_id pids_all tempdir (Some pdb_ids) save (Some save_path)
      max_workers kw sched draws st = Some (st', Return view) ∧
    metadata view = [] ∧
    __len__ view = 0 ∧
    ∀ st'' idx, __getitem__ st'' view idx = Raise IndexError.
Proof.
  intros Hskipped Hattrs.
  destruct (map_outcome_all_none
              (λ pdb_id, _maybe_fetch_and_extract UNK_TOKEN fetch_pdb_id pdb_id save_path)
              pdb_ids) as (rows & Hrows & Hempty).
  { intros pdb_id Hin. by apply maybe_fetch_skipped, Hskipped. }
  assert (build_metadata UNK_TOKEN fetch_pdb_id pdb_ids save_path max_workers sched =
          Some (Return [])) as Htable
    by (by rewrite build_metadata_sequential, Hrows; simpl; rewrite Hempty).
  rewrite (build_unfold _ _ _ _ (Some pdb_ids) _ (Some save_path) _ _ _ _ _ _ Htable).
  cbv zeta.
  set (st' := if save then _ else st).
  destruct (init_return st' save_path (kw_transform kw) (kw_attrs kw) (Some [])
              (kw_max_resolution kw) (kw_min_sequence_length kw)
              (kw_max_sequence_length kw) draws [] eq_refl) as [view Hview].
  { destruct Hattrs as [Hall | Hok]; [by left|right]. by apply check_attrs_return. }
  exists st', view. split; [by rewrite <- Hview|].
  destruct (init_fields _ _ _ _ _ _ _ _ _ _ Hview) as (table & Hload & _ & _ & Hmd).
  injection Hload as <-. simpl in Hmd.
  split; [exact Hmd|]. split; [unfold __len__; by rewrite Hmd|].
  intros st'' idx. unfold __getitem__. rewrite iloc_outside; [done|].
  rewrite Hmd. simpl. lia.
Qed.

Lemma build_all_skipped_empty_view_witness :
  ∃ st' view,
    build 1 fetch_outcomes [] "/tmp" (Some ["GONE"; "VOID"]) true (Some "/data") 1
      default_kwargs [] [] empty_storage = Some (st', Return view) ∧
    metadata view = [] ∧
    __len__ view = 0 ∧
    __getitem__ storage_example view 0 = Raise IndexError.
Proof.
  destruct (build_all_skipped_empty_view 1 fetch_outcomes [] "/tmp" ["GONE"; "VOID"] "/data"
              true 1 default_kwargs [] [] empty_storage)
    as (st' & view & Hbuild & Hmd & Hlen & Hget).
  - intros pdb_id Hin. apply list_elem_of_In in Hin. simpl in Hin.
    destruct Hin as [<-|[<-|[]]].
    + right. right. left. reflexivity.
    + right. right. right. eexists. split; reflexivity.
  - left. reflexivity.
  - exists st', view. repeat split; [exact Hbuild|exact Hmd|exact Hlen|apply Hget].
Defined.

(** * Further properties of the view *)

Lemma single_char_unrecognized (c : Ascii.ascii) :
  String c EmptyString ∉ protein_attrs.
Proof.
  unfold protein_attrs. intros Hin.
  repeat (apply elem_of_cons in Hin as [Hin|Hin]; [by inversion Hin|]).
  by apply elem_of_nil in Hin.
Qed.

Lemma check_attrs_return_inv (items : list string) :
  check_attrs items = Return () → ∀ a, a ∈ items → a ∈ protein_attrs.
Proof.
  induction items as [|b items IH]; simpl; intros Hcheck a Ha.
  - by apply elem_of_nil in Ha.
  - case_bool_decide as Hb; [|done].
    apply elem_of_cons in Ha as [->|Ha]; [done|by apply IH].
Qed.

(** X12: an allow-list given as a string is read character by character:
    every string other than ["all"] and the empty string makes the
    constructor raise [AttributeError], the name of a recognized
    attribute included; the empty string is accepted. *)
Theorem attrs_string_rejected (st : Storage) (base : string)
    (tr : option (ProteinDatum → ProteinDatum)) (s : string)
    (md : option DataFrame) (R : option Q) (lo hi : option Z) (draws : list nat)
    (table : DataFrame) :
  load_metadata st base md = Return table →
  s ≠ "all" →
  (s ≠ EmptyString →
     __init__ st base tr (AttrsStr s) md R lo hi draws = Raise AttributeError) ∧
  (s = EmptyString →
     ∃ view, __init__ st base tr (AttrsStr s) md R lo hi draws = Return view ∧
             attrs view = AttrsStr s).
Proof.
  intros Hload Hall. unfold __init__. rewrite Hload. simpl.
  rewrite bool_decide_eq_false_2 by done. split.
  - intros Hne. destruct s as [|c s]; [done|]. simpl.
    rewrite bool_decide_eq_false_2 by apply single_char_unrecognized. done.
  - intros ->. simpl. by eexists.
Qed.

Lemma attrs_string_rejected_witness :
  __init__ empty_storage "/data" None (AttrsStr "idcode") (Some table_example)
    None None None [] = Raise AttributeError.
Proof.
  apply (attrs_string_rejected empty_storage "/data" None "idcode" (Some table_example)
           None None None [] table_example); [reflexivity|discriminate|discriminate].
Defined.

(** X13: the allow-list of a constructed view holds recognized attributes
    only, whether it was given as ["all"], as a list or as a string. *)
Theorem view_attrs_recognized (st : Storage) (base : string)
    (tr : option (ProteinDatum → ProteinDatum)) (a : attrs_arg)
    (md : option DataFrame) (R : option Q) (lo hi : option Z) (draws : list nat)
    (view : ProteinDataset) :
  __init__ st base tr a md R lo hi draws = Return view →
  ∀ x, x ∈ attrs_iter (attrs view) → x ∈ recognized_attributes.
Proof.
  unfold __init__. destruct (load_metadata st base md) as [table|e]; simpl; [|done].
  destruct (eq_all a).
  - intros [= <-] x Hx. by apply protein_attrs_recognized.
  - destruct (check_attrs (attrs_iter a)) as [[]|e] eqn:Hcheck; simpl; [|done].
    intros [= <-] x Hx. simpl in Hx.
    by apply protein_attrs_recognized, (check_attrs_return_inv _ Hcheck).
Qed.

Lemma view_attrs_recognized_witness : "atom_coord" ∈ recognized_attributes.
Proof.
  apply (view_attrs_recognized empty_storage "/data" None (AttrsStr "all")
           (Some table_example) None None None [] view_example).
  - reflexivity.
  - apply (bool_decide_unpack _). vm_compute. exact I.
Defined.

(** X14: retrieval raises [IndexError] exactly for the indices below
    [-length()] and those from [length()] on. *)
Theorem getitem_index_error_iff (st : Storage) (self : ProteinDataset) (idx : Z) :
  __getitem__ st self idx = Raise IndexError ↔
  idx < - __len__ self ∨ __len__ self ≤ idx.
Proof.
  unfold __len__. split.
  - intros Hraise.
    destruct (decide (idx < - Z.of_nat (length (metadata self)) ∨
                      Z.of_nat (length (metadata self)) ≤ idx)) as [Hout|Hin]; [done|].
    exfalso. destruct (iloc_inside (metadata self) idx) as (row & Hrow & _); [lia|].
    unfold __getitem__ in Hraise. rewrite Hrow in Hraise. simpl in Hraise.
    unfold from_filepath in Hraise.
    destruct (pdb_files st !! _); simpl in Hraise; [|done].
    by destruct (transform self).
  - intros Hout. unfold __getitem__. by rewrite iloc_outside.
Qed.

(** X15: a negative index counts from the end: within [-length()] and
    [-1], [get(i)] is [get(i + length())]. *)
Theorem getitem_negative_index (st : Storage) (self : ProteinDataset) (idx : Z) :
  - __len__ self ≤ idx < 0 →
  __getitem__ st self idx = __getitem__ st self (idx + __len__ self).
Proof.
  unfold __len__. intros Hneg. unfold __getitem__. by rewrite iloc_negative.
Qed.

Lemma getitem_negative_index_witness :
  __getitem__ storage_example view_example (-2) =
  __getitem__ storage_example view_example (-2 + __len__ view_example).
Proof.
  apply (getitem_negative_index storage_example view_example (-2)).
  unfold __len__. simpl. lia.
Defined.

(** X16: for an index within the bounds, retrieval reads one file, the
    one named after the identifier of a row of the view: it returns the
    stored record, through the transform when there is one, and raises the
    storage error when the file is missing. *)
Theorem getitem_reads_row_file (st : Storage) (self : ProteinDataset) (idx : Z) :
  - __len__ self ≤ idx < __len__ self →
  ∃ row,
    row ∈ metadata self ∧
    match pdb_files st !! os_path_join (base_path self) (row_idcode row +:+ ".pdb") with
    | Some datum =>
        __getitem__ st self idx =
        Return (match transform self with Some t => t datum | None => datum end)
    | None => __getitem__ st self idx = Raise StorageError
    end.
Proof.
  unfold __len__. intros Hin.
  destruct (iloc_inside (metadata self) idx Hin) as (row & Hrow & Hmem).
  exists row. split; [done|]. unfold __getitem__. rewrite Hrow. simpl.
  unfold from_filepath.
  destruct (pdb_files st !! _) as [datum|]; simpl; [|done].
  by destruct (transform self).
Qed.

Lemma getitem_reads_row_file_witness :
  ∃ row,
    row ∈ metadata view_example ∧
    match pdb_files storage_example !!
            os_path_join (base_path view_example) (row_idcode row +:+ ".pdb") with
    | Some datum =>
        __getitem__ storage_example view_example 1 =
        Return (match transform view_example with Some t => t datum | None => datum end)
    | None => __getitem__ storage_example view_example 1 = Raise StorageError
    end.
Proof.
  apply (getitem_reads_row_file storage_example view_example 1).
  unfold __len__. simpl. lia.
Defined.

(** X17: the constructor never duplicates a row: when the identifiers of
    the table are unique, so are those of the view. *)
Theorem view_keeps_identifiers_unique (st : Storage) (base : string)
    (tr : option (ProteinDatum → ProteinDatum)) (a : attrs_arg)
    (md : option DataFrame) (R : option Q) (lo hi : option Z) (draws : list nat)
    (table : DataFrame) (view : ProteinDataset) :
  load_metadata st base md = Return table →
  __init__ st base tr a md R lo hi draws = Return view →
  NoDup (row_idcode <$> table) →
  NoDup (row_idcode <$> metadata view).
Proof.
  intros Hload Hview Hnodup.
  destruct (init_fields _ _ _ _ _ _ _ _ _ _ Hview) as (table' & Hload' & _ & _ & Hmd).
  rewrite Hload in Hload'. injection Hload' as <-.
  rewrite Hmd, sample_frac1_perm.
  eapply sublist_NoDup; [exact Hnodup|].
  apply fmap_sublist, sublist_filter.
Qed.

Lemma view_keeps_identifiers_unique_witness :
  NoDup (row_idcode <$> metadata
    {| base_path := "/data";
       metadata := sample_frac1 [5; 3; 1]%nat
                     (filter (passes_thresholds (Some (2 # 1)) None None) table_example);
       transform := None; attrs := AttrsList protein_attrs |}).
Proof.
  apply (view_keeps_identifiers_unique empty_storage "/data" None (AttrsStr "all")
           (Some table_example) (Some (2 # 1)) None None [5; 3; 1]%nat table_example).
  - reflexivity.
  - reflexivity.
  - apply (bool_decide_unpack _). vm_compute. exact I.
Defined.



Lemma map_outcome_inv {A B} (f : A → outcome B) (xs : list A) (ys : list B) :
  map_outcome f xs = Return ys → Forall2 (λ x y, f x = Return y) xs ys.
Proof.
  revert ys. induction xs as [|x xs IH]; intros ys; simpl.
  - intros [= <-]. constructor.
  - destruct (f x) as [y|e] eqn:Hy; simpl; [|done].
    destruct (map_outcome f xs) as [ys'|e]; simpl; [|done].
    intros [= <-]. constructor; [done|by apply IH].
Qed.

(** X19: a build invents no row: every row of the view it returns is the
    row of an identifier of the list whose fetch step gave that row, and
    it passes the thresholds handed to the build. *)
Theorem build_view_rows_from_list (UNK_TOKEN : Z)
    (fetch_pdb_id : string → string → outcome ProteinDatum)
    (pids_all : list string) (tempdir : string) (pdb_ids : list string)
    (save : bool) (save_path : string) (max_workers : Z) (kw : kwargs)
    (sched draws : list nat) (st st' : Storage) (view : ProteinDataset) :
  build UNK_TOKEN fetch_pdb_id pids_all tempdir (Some pdb_ids) save (Some save_path)
    max_workers kw sched draws st = Some (st', Return view) →
  ∀ row, row ∈ metadata view →
    passes_thresholds (kw_max_resolution kw) (kw_min_sequence_length kw)
      (kw_max_sequence_length kw) row ∧
    ∃ pdb_id, pdb_id ∈ pdb_ids ∧
      _maybe_fetch_and_extract UNK_TOKEN fetch_pdb_id pdb_id save_path = Return (Some [row]).
Proof.
  unfold build. rewrite build_metadata_sequential. simpl.
  destruct (map_outcome _ pdb_ids) as [rows|e] eqn:Hrows; simpl; [|done].
  intros [= _ Hview] row Hrow.
  destruct (init_fields _ _ _ _ _ _ _ _ _ _ Hview) as (table & Hload & _ & _ & Hmd).
  injection Hload as <-.
  rewrite Hmd, sample_frac1_perm in Hrow.
  apply list_elem_of_filter in Hrow as [Hpass Hin]. split; [exact Hpass|].
  apply map_outcome_inv in Hrows.
  pose proof (table_of_entries UNK_TOKEN fetch_pdb_id save_path pdb_ids rows Hrows)
    as Htable.
  apply list_elem_of_lookup in Hin as [i Hi].
  destruct (Forall2_lookup_r _ _ _ _ _ Htable Hi) as (pdb_id & Hid & Hentry).
  exists pdb_id. split; [|exact Hentry].
  apply list_elem_of_lookup_2 in Hid. by apply list_elem_of_filter in Hid as [_ Hid].
Qed.

Lemma build_view_rows_from_list_witness :
  passes_thresholds None None None (row_of_id "A2") ∧
  ∃ pdb_id, pdb_id ∈ ["A1"; "VOID"; "A2"] ∧
    _maybe_fetch_and_extract 1 fetch_outcomes pdb_id "/data" =
      Return (Some [row_of_id "A2"]).
Proof.
  apply (build_view_rows_from_list 1 fetch_outcomes [] "/tmp" ["A1"; "VOID"; "A2"] true
           "/data" 1 default_kwargs [] [4]%nat empty_storage
           (to_hdf empty_storage "/data/metadata.h5" rows_example)
           {| base_path := "/data"; metadata := sample_frac1 [4]%nat rows_example;
              transform := None; attrs := AttrsList protein_attrs |}).
  - reflexivity.
  - apply list_elem_of_In. simpl. right. left. reflexivity.
Defined.
